(** * vmup: the SSH-config editor and the start sequence, verified

    A shallow embedding of [vmup/vmup.py] and [vmup/gcp_utils.py].

    Python [str] values are lists of code points; the development keeps to
    the code points below 256 ([ascii]).  The content of the SSH config
    file is the text stored on disk.  The file is opened in text mode with
    the default [newline=None]: on reading, a carriage return followed by
    a line feed, and a carriage return alone, both arrive as one line
    feed ([universal_newlines]), and [readlines] cuts the translated text
    after every line feed; on writing, the text is stored as given (the
    line separator of the platform is the line feed, as on Linux and
    macOS, where [gcloud] and [~/.ssh/config] live).  The regular
    expressions of the source are kept as patterns and run by a small
    backtracking matcher with the greedy priority of Python's [re]
    module.  The replacement template of [re.sub] is parsed as CPython
    3.12 and later do; earlier versions differ on templates that hold a
    backslash (see [Re.parse_template]), and every statement below that
    is not about such a template holds for them too.  The operations run
    in a state and exception monad over the file, the printed output and
    the external command. *)

From Stdlib Require Import List Ascii Bool Arith ZArith Lia.
From Stdlib Require String.
Import ListNotations String.StringSyntax.

Delimit Scope string_scope with string.

Set Implicit Arguments.

(** ** Text *)

Definition str := list ascii.

Definition lit (s : String.string) : str := String.list_ascii_of_string s.
Arguments lit s%_string.

Definition NL : ascii := ascii_of_nat 10.
Definition BACKSLASH : ascii := ascii_of_nat 92.

Definition CR : ascii := ascii_of_nat 13.

Definition is_nl (c : ascii) : bool := Ascii.eqb c NL.
Definition is_cr (c : ascii) : bool := Ascii.eqb c CR.

(** A line of text with its line feed. *)
Definition line (s : String.string) : str := lit s ++ [NL].
Arguments line s%_string.

(** [str.isspace] and the class [\s] of a [str] pattern agree: below 256
    the white space characters are 9-13, 28-32, 133 and 160. *)
Definition is_space (c : ascii) : bool :=
  let n := nat_of_ascii c in
  ((9 <=? n) && (n <=? 13)) || ((28 <=? n) && (n <=? 32))
  || (n =? 133) || (n =? 160).

(** Lower-casing of a code point below 256, as [re.IGNORECASE] applies it
    to both the pattern and the subject. *)
Definition lower (c : ascii) : ascii :=
  let n := nat_of_ascii c in
  if ((65 <=? n) && (n <=? 90))
     || ((192 <=? n) && (n <=? 222) && negb (n =? 215))
  then ascii_of_nat (n + 32) else c.

Definition chr_eq (ignorecase : bool) (p c : ascii) : bool :=
  if ignorecase then Ascii.eqb (lower p) (lower c) else Ascii.eqb p c.

(** [str.strip()] *)
Fixpoint lstrip (s : str) : str :=
  match s with
  | c :: s' => if is_space c then lstrip s' else s
  | [] => []
  end.

Definition strip (s : str) : str := rev (lstrip (rev (lstrip s))).

(** [needle in s] *)
Fixpoint startswith (needle s : str) : bool :=
  match needle, s with
  | [], _ => true
  | a :: n', b :: s' => Ascii.eqb a b && startswith n' s'
  | _ :: _, [] => false
  end.

Fixpoint contains (needle s : str) : bool :=
  startswith needle s
  || match s with
     | [] => false
     | _ :: s' => contains needle s'
     end.

(** Reading in text mode with [newline=None] (universal newlines): the
    decoder hands a line feed for every carriage return, and drops a line
    feed that directly follows a carriage return.  [after_cr] tells that
    the character before was a carriage return. *)
Fixpoint translate_from (after_cr : bool) (s : str) : str :=
  match s with
  | [] => []
  | c :: s' =>
      if is_cr c then NL :: translate_from true s'
      else if is_nl c then
             if after_cr then translate_from false s'
             else NL :: translate_from false s'
           else c :: translate_from false s'
  end.

Definition universal_newlines (s : str) : str := translate_from false s.

(** Whether the decoder, started with [after_cr], has just read a
    carriage return when it is through [s]. *)
Fixpoint ends_cr (after_cr : bool) (s : str) : bool :=
  match s with
  | [] => after_cr
  | c :: s' => ends_cr (is_cr c) s'
  end.

(** Cutting a text after every line feed: every line keeps its line feed;
    a last line without one is a line too. *)
Fixpoint splitlines (s : str) : list str :=
  match s with
  | [] => []
  | c :: s' =>
      if is_nl c then [c] :: splitlines s'
      else match splitlines s' with
           | [] => [[c]]
           | l :: ls => (c :: l) :: ls
           end
  end.

(** [f.readlines()], and the iteration [for line in f], on a file opened
    with [open(path, 'r')]; the argument is the content on disk. *)
Definition readlines (s : str) : list str := splitlines (universal_newlines s).

(** [f.writelines(lines)] writes the lines one after the other; a line
    feed is stored as a line feed. *)
Definition writelines (lines : list str) : str := concat lines.

(** ** Regular expressions *)

Module Re.

Inductive cls := Space | Dot.

Definition in_cls (k : cls) (c : ascii) : bool :=
  match k with
  | Space => is_space c
  | Dot => negb (is_nl c)
  end.

(** The items the patterns of the source are made of. *)
Inductive item :=
| Bol                 (* ^ *)
| Eol                 (* $ *)
| Lit (c : ascii)     (* a literal character *)
| Star (k : cls)      (* k* , greedy *)
| Plus (k : cls)      (* k+ , greedy *)
| Open                (* ( of group 1 *)
| Close.              (* ) of group 1 *)

Definition pattern := list item.

Definition lits (s : String.string) : pattern := map Lit (lit s).
Arguments lits s%_string.

(** [re.escape(s)] makes every character of [s] stand for itself. *)
Definition escape (s : str) : pattern := map Lit s.

(** A match: where it ends, and the span of group 1. *)
Record rmatch := { m_end : nat; m_g1 : nat * nat }.

Definition cont := nat -> str -> option rmatch.

(** Greedy repetition: as many characters of the class as possible, then
    one fewer each time the rest of the pattern fails. *)
Fixpoint star (k : cls) (rest : cont) (pos : nat) (s : str) : option rmatch :=
  match s with
  | a :: s' =>
      if in_cls k a then
        match star k rest (S pos) s' with
        | Some m => Some m
        | None => rest pos s
        end
      else rest pos s
  | [] => rest pos s
  end.

Fixpoint exec (ic : bool) (p : pattern) (g : nat * nat) (pos : nat) (s : str)
  {struct p} : option rmatch :=
  match p with
  | [] => Some {| m_end := pos; m_g1 := g |}
  | Bol :: p' => if pos =? 0 then exec ic p' g pos s else None
  | Eol :: p' =>
      match s with
      | [] => exec ic p' g pos s
      | [c] => if is_nl c then exec ic p' g pos s else None
      | _ => None
      end
  | Lit c :: p' =>
      match s with
      | a :: s' => if chr_eq ic c a then exec ic p' g (S pos) s' else None
      | [] => None
      end
  | Star k :: p' => star k (exec ic p' g) pos s
  | Plus k :: p' =>
      match s with
      | a :: s' => if in_cls k a then star k (exec ic p' g) (S pos) s' else None
      | [] => None
      end
  | Open :: p' => exec ic p' (pos, snd g) pos s
  | Close :: p' => exec ic p' (fst g, pos) pos s
  end.

(** [re.match(pattern, s, flags)]: the match is tried at offset 0 only. *)
Definition rmatch_at0 (ic : bool) (p : pattern) (s : str) : option rmatch :=
  exec ic p (0, 0) 0 s.

Definition matches (ic : bool) (p : pattern) (s : str) : bool :=
  match rmatch_at0 ic p s with Some _ => true | None => false end.

Definition slice (s : str) (a b : nat) : str := firstn (b - a) (skipn a s).

(** [m.group(0)] and [m.group(1)] *)
Definition group0 (s : str) (m : rmatch) : str := firstn (m_end m) s.
Definition group1 (s : str) (m : rmatch) : str :=
  slice s (fst (m_g1 m)) (snd (m_g1 m)).

(** *** Replacement templates

    The second argument of [re.sub] is a template: a backslash starts an
    escape ([\g<1>], [\1], [\n], an octal code, ...).  [parse_template]
    follows [re._parser.parse_template] of CPython 3.12 and later for a
    pattern with one group; [None] stands for the exception it raises
    ([re.error], or [IndexError] for an unknown group name).

    The package asks for Python 3.6 or later, and the versions differ on
    some templates: up to 3.11 the name in [\g<...>] goes through [int],
    which also takes a sign, surrounding white space and underscores, and
    3.6 keeps an unknown escape of a letter as it stands.  All versions
    agree on a template without backslash after [\g<1>] (every character
    stands for itself, [parse_template_g1]) and on the escapes [\1] and
    [\t] used in the examples; the theorems speak of such templates, or
    hold whatever the parser answers. *)

Inductive titem := TLit (c : ascii) | TGroup (n : nat).

Definition is_digit (c : ascii) : bool :=
  let n := nat_of_ascii c in (48 <=? n) && (n <=? 57).
Definition is_octdigit (c : ascii) : bool :=
  let n := nat_of_ascii c in (48 <=? n) && (n <=? 55).
Definition is_ascii_letter (c : ascii) : bool :=
  let n := nat_of_ascii c in
  ((65 <=? n) && (n <=? 90)) || ((97 <=? n) && (n <=? 122)).
Definition digit_val (c : ascii) : nat := nat_of_ascii c - 48.

(** [int(name)] and [int(digits, 8)] on strings of digits. *)
Definition int_of (base : nat) (ds : str) : nat :=
  fold_left (fun acc d => base * acc + digit_val d) ds 0.

(** The table ESCAPES of the parser. *)
Definition escapes (c : ascii) : option ascii :=
  match nat_of_ascii c with
  | 97 => Some (ascii_of_nat 7)     (* \a *)
  | 98 => Some (ascii_of_nat 8)     (* \b *)
  | 102 => Some (ascii_of_nat 12)   (* \f *)
  | 110 => Some (ascii_of_nat 10)   (* \n *)
  | 114 => Some (ascii_of_nat 13)   (* \r *)
  | 116 => Some (ascii_of_nat 9)    (* \t *)
  | 118 => Some (ascii_of_nat 11)   (* \v *)
  | 92 => Some BACKSLASH            (* \\ *)
  | _ => None
  end.

(** The number of groups of the pattern the template is used with. *)
Definition groups : nat := 1.

Definition addgroup (index : nat) (k : option (list titem)) : option (list titem) :=
  if index <=? groups then option_map (cons (TGroup index)) k else None.

Definition addlit (c : ascii) (k : option (list titem)) : option (list titem) :=
  option_map (cons (TLit c)) k.

Fixpoint parse_template (s : str) : option (list titem) :=
  match s with
  | [] => Some []
  | c :: rest =>
    if negb (Ascii.eqb c BACKSLASH) then addlit c (parse_template rest)
    else
      match rest with
      | [] => None                                 (* bad escape (end of pattern) *)
      | c :: rest =>
        if Ascii.eqb c "g" then
          match rest with
          | lt :: rest =>
            if Ascii.eqb lt "<" then
              (fix getuntil (name t : str) {struct t} : option (list titem) :=
                 match t with
                 | [] => None                      (* missing >, unterminated name *)
                 | d :: t' =>
                   if Ascii.eqb d ">" then
                     match name with
                     | [] => None                  (* missing group name *)
                     | _ :: _ =>
                       if forallb is_digit name
                       then addgroup (int_of 10 name) (parse_template t')
                       else None                   (* bad or unknown group name *)
                     end
                   else getuntil (name ++ [d]) t'
                 end) [] rest
            else None                              (* missing < *)
          | [] => None
          end
        else if Ascii.eqb c "0" then
          match rest with
          | d :: rest1 =>
            if is_octdigit d then
              match rest1 with
              | e :: rest2 =>
                if is_octdigit e
                then addlit (ascii_of_nat (int_of 8 [d; e] mod 256)) (parse_template rest2)
                else addlit (ascii_of_nat (int_of 8 [d])) (parse_template rest1)
              | [] => addlit (ascii_of_nat (int_of 8 [d])) (parse_template rest1)
              end
            else addlit (ascii_of_nat 0) (parse_template rest)
          | [] => addlit (ascii_of_nat 0) (parse_template rest)
          end
        else if is_digit c then
          match rest with
          | d :: rest1 =>
            if is_digit d then
              match rest1 with
              | e :: rest2 =>
                if is_octdigit c && is_octdigit d && is_octdigit e then
                  if int_of 8 [c; d; e] <=? 255
                  then addlit (ascii_of_nat (int_of 8 [c; d; e])) (parse_template rest2)
                  else None                        (* octal escape out of range *)
                else addgroup (int_of 10 [c; d]) (parse_template rest1)
              | [] => addgroup (int_of 10 [c; d]) (parse_template rest1)
              end
            else addgroup (int_of 10 [c]) (parse_template rest)
          | [] => addgroup (int_of 10 [c]) (parse_template rest)
          end
        else
          match escapes c with
          | Some e => addlit e (parse_template rest)
          | None =>
            if is_ascii_letter c then None         (* bad escape *)
            else addlit BACKSLASH (addlit c (parse_template rest))
          end
      end
  end.

Definition expand_item (s : str) (m : rmatch) (t : titem) : str :=
  match t with
  | TLit c => [c]
  | TGroup 0 => group0 s m
  | TGroup _ => group1 s m
  end.

Definition expand (t : list titem) (s : str) (m : rmatch) : str :=
  concat (map (expand_item s m) t).

(** [re.sub(pattern, repl, s)] for a pattern anchored by [^] (and without
    re.MULTILINE): a match can only start at offset 0, so at most one
    match is replaced and what follows it is kept.  The template is
    compiled before the subject is looked at. *)
Definition sub (ic : bool) (p : pattern) (repl : str) (s : str) : option str :=
  match parse_template repl with
  | None => None
  | Some t =>
      Some match rmatch_at0 ic p s with
           | Some m => expand t s m ++ skipn (m_end m) s
           | None => s
           end
  end.

End Re.

Import Re.

(** ** The world the program runs in *)

Inductive exn :=
| FileNotFoundError                     (* open() of a missing file for reading *)
| SystemExit (msg : str)                (* sys.exit(msg); not an Exception *)
| TemplateError                         (* raised while re.sub compiles its template *)
| CalledProcessError (stderr : str)     (* subprocess.run(check=True), exit status not 0 *)
| TypeError.                            (* subprocess.run of a command that holds None *)

(** [except Exception] catches everything but [SystemExit]. *)
Definition is_Exception (e : exn) : bool :=
  match e with
  | SystemExit _ => false
  | _ => true
  end.

Inductive outcome (A : Type) :=
| Returned (a : A)
| Raised (e : exn).
Arguments Raised {A} e.

(** What [subprocess.run(..., capture_output=True, text=True)] observes. *)
Record completed := { returncode : Z; proc_stdout : str; proc_stderr : str }.

(** What [print] writes: a text, or the line [An error occurred: {e}]
    whose wording is the exception's. *)
Inductive printed :=
| Say (s : str)
| SayErrorOccurred (e : exn).

Record world := {
  ssh_config : option str;              (* the file at ssh_config_path; None: no such file *)
  stdout : list printed;                (* what has been printed, oldest first *)
  writes : nat;                         (* how often the file was opened for writing *)
  subprocess_run : list str -> completed  (* the external command, as an oracle *)
}.

Definition M (A : Type) := world -> outcome A * world.

Definition ret {A} (a : A) : M A := fun w => (Returned a, w).
Definition raise {A} (e : exn) : M A := fun w => (Raised e, w).
Definition bind {A B} (m : M A) (k : A -> M B) : M B :=
  fun w => match m w with
           | (Returned a, w') => k a w'
           | (Raised e, w') => (Raised e, w')
           end.

Notation "x <- m ;; k" := (bind m (fun x => k))
  (at level 61, m at next level, right associativity).
Notation "m ;;; k" := (bind m (fun _ => k))
  (at level 61, right associativity).

(** [try: m except ...: handler], for the exceptions [catches] selects. *)
Definition try_except {A} (m : M A) (catches : exn -> bool) (handler : exn -> M A) : M A :=
  fun w => match m w with
           | (Raised e, w') => if catches e then handler e w' else (Raised e, w')
           | r => r
           end.

Definition set_stdout (w : world) (o : list printed) : world :=
  {| ssh_config := ssh_config w; stdout := o; writes := writes w;
     subprocess_run := subprocess_run w |}.

Definition set_file (w : world) (content : str) : world :=
  {| ssh_config := Some content; stdout := stdout w; writes := S (writes w);
     subprocess_run := subprocess_run w |}.

Definition print (s : str) : M unit :=
  fun w => (Returned tt, set_stdout w (stdout w ++ [Say s])).

Definition print_error_occurred (e : exn) : M unit :=
  fun w => (Returned tt, set_stdout w (stdout w ++ [SayErrorOccurred e])).

(** [os.path.isfile(self.ssh_config_path)] *)
Definition isfile : M bool :=
  fun w => (Returned (match ssh_config w with Some _ => true | None => false end), w).

(** [open(self.ssh_config_path, 'r')] followed by reading the lines, with
    the translation of line ends that text mode applies. *)
Definition open_readlines : M (list str) :=
  fun w => match ssh_config w with
           | Some content => (Returned (readlines content), w)
           | None => (Raised FileNotFoundError, w)
           end.

(** [open(self.ssh_config_path, 'w')] followed by [f.writelines(lines)]:
    the text is stored as it is; a carriage return in it is translated
    when the file is read again. *)
Definition open_writelines (lines : list str) : M unit :=
  fun w => (Returned tt, set_file w (writelines lines)).

(** [open(self.ssh_config_path, 'a')] followed by [f.write(text)]: the
    text goes after the stored content, which is not translated. *)
Definition open_append (text : str) : M unit :=
  fun w => (Returned tt,
            set_file w (match ssh_config w with
                        | Some content => content ++ text
                        | None => text
                        end)).

(** ** gcp_utils.py *)

Module gcp_utils.

Definition run_command (command : list str) : M str :=
  try_except
    (fun w =>
       let result := subprocess_run w command in
       if (returncode result =? 0)%Z
       then (Returned (strip (proc_stdout result)), w)
       else (Raised (CalledProcessError (proc_stderr result)), w))
    (fun e => match e with CalledProcessError _ => true | _ => false end)
    (fun e => match e with
              | CalledProcessError stderr => ret (lit "Error: " ++ strip stderr)
              | _ => raise e
              end).

Definition stop_instance (instance project zone : str) : M str :=
  run_command [lit "gcloud"; lit "compute"; lit "instances"; lit "stop"; instance;
               lit "--project"; project; lit "--zone"; zone].

Definition get_public_ip (instance project zone : str) : M str :=
  run_command [lit "gcloud"; lit "compute"; lit "instances"; lit "describe"; instance;
               lit "--project"; project; lit "--zone"; zone;
               lit "--format=get(networkInterfaces[0].accessConfigs[0].natIP)"].

Definition start_instance (instance project zone : str) : M str :=
  run_command [lit "gcloud"; lit "compute"; lit "instances"; lit "start"; instance;
               lit "--project"; project; lit "--zone"; zone].

End gcp_utils.

(** ** vmup.py: class VMManager *)

(** The settings file as [configparser] reads it: the keys of the section
    [settings] that are present. *)
Record Settings := {
  cfg_ssh_config : option str;
  cfg_user : option str;
  cfg_project : option str;
  cfg_zone : option str
}.

(** [home] is the user's home directory, without a final slash; [config]
    is what [_read_config] returns each time it is called. *)
Record VMManager := { home : str; config : Settings }.

(** [os.path.expanduser] of a path that starts with [~/] *)
Definition expanduser (home p : str) : str :=
  match p with
  | "~"%char :: rest => home ++ rest
  | _ => p
  end.

(** [os.path.join(a, b)] for a relative [b] *)
Definition path_join (a b : str) : str :=
  match rev a with
  | [] => b
  | "/"%char :: _ => a ++ b
  | _ => a ++ lit "/" ++ b
  end.

(** [config.get("settings", key, fallback=d)] *)
Definition get_fallback (v : option str) (d : str) : str :=
  match v with Some x => x | None => d end.

(** Truth value of a string or None. *)
Definition truthy (v : option str) : bool :=
  match v with Some (_ :: _) => true | _ => false end.

Definition default_ssh_config (self : VMManager) : str :=
  expanduser (home self) (lit "~/.ssh/config").
Definition ssh_dir (self : VMManager) : str :=
  expanduser (home self) (lit "~/.ssh/").

Definition ssh_config_path (self : VMManager) : str :=
  get_fallback (cfg_ssh_config (config self)) (default_ssh_config self).

Definition get_ssh_user (self : VMManager) : str :=
  get_fallback (cfg_user (config self)) (lit "default_user").

Definition get_project_and_zone (self : VMManager) : M (str * str) :=
  let project := cfg_project (config self) in
  let zone := cfg_zone (config self) in
  if negb (truthy project) || negb (truthy zone)
  then raise (SystemExit (lit "Error: Project and Zone must be set in the config file."))
  else ret (get_fallback project [], get_fallback zone []).

(** The patterns of the source. *)

(* r'^\s*Host\s+(.+)' *)
Definition HOST_VALUE : pattern :=
  [Bol; Star Space] ++ lits "Host" ++ [Plus Space; Open; Plus Dot; Close].
(* r'^\s*HostName\s+(.+)' *)
Definition HOSTNAME_VALUE : pattern :=
  [Bol; Star Space] ++ lits "HostName" ++ [Plus Space; Open; Plus Dot; Close].
(* r'^\s*Host\s+' *)
Definition HOST : pattern :=
  [Bol; Star Space] ++ lits "Host" ++ [Plus Space].
(* r'^\s*Host\s+' + re.escape(host) + r'\s*$' *)
Definition HOST_NAMED (host : str) : pattern :=
  [Bol; Star Space] ++ lits "Host" ++ [Plus Space] ++ escape host ++ [Star Space; Eol].
(* r'^\s*HostName\s+' *)
Definition HOSTNAME : pattern :=
  [Bol; Star Space] ++ lits "HostName" ++ [Plus Space].
(* r'(^\s*HostName\s+).*' *)
Definition HOSTNAME_REST : pattern :=
  [Open; Bol; Star Space] ++ lits "HostName" ++ [Plus Space; Close; Star Dot].

(** *** list_hostnames *)

Fixpoint list_loop (lines : list str) (current_host : option str)
  (hostnames : list str) : list str :=
  match lines with
  | [] => hostnames
  | line :: lines' =>
      let host_match := rmatch_at0 true HOST_VALUE line in
      let current_host :=
        match host_match with
        | Some m => Some (group1 line m)
        | None => current_host
        end in
      let hostname_match := rmatch_at0 true HOSTNAME_VALUE line in
      let hostnames :=
        match hostname_match with
        | Some m =>
            if truthy current_host
            then hostnames ++ [get_fallback current_host [] ++ lit " -> " ++ group1 line m]
            else hostnames
        | None => hostnames
        end in
      list_loop lines' current_host hostnames
  end.

Definition list_hostnames (self : VMManager) : M (list str) :=
  exists_ <- isfile ;;
  if negb exists_ then
    print (lit "Error: Config file " ++ ssh_config_path self ++ lit " not found!") ;;;
    ret []
  else
    lines <- open_readlines ;;
    ret (list_loop lines None []).

(** *** update_hostname *)

Fixpoint update_loop (host new_ip : str) (lines : list str)
  (host_found in_target_host_block : bool) (modified_lines : list str)
  : outcome (bool * list str) :=
  match lines with
  | [] => Returned (host_found, modified_lines)
  | line :: lines' =>
      let in_target_host_block :=
        if matches true HOST line
        then matches true (HOST_NAMED host) line
        else in_target_host_block in
      let host_found :=
        if matches true HOST line
        then host_found || in_target_host_block
        else host_found in
      if in_target_host_block && matches true HOSTNAME line then
        match sub false HOSTNAME_REST (lit "\g<1>" ++ new_ip) line with
        | Some modified_line =>
            update_loop host new_ip lines' host_found in_target_host_block
              (modified_lines ++ [modified_line])
        | None => Raised TemplateError
        end
      else
        update_loop host new_ip lines' host_found in_target_host_block
          (modified_lines ++ [line])
  end.

Definition lift_outcome {A} (o : outcome A) : M A :=
  fun w => (o, w).

Definition update_hostname (self : VMManager) (host new_ip : str) : M bool :=
  exists_ <- isfile ;;
  if negb exists_ then
    print (lit "Error: Config file " ++ ssh_config_path self ++ lit " not found!") ;;;
    ret false
  else
    lines <- open_readlines ;;
    r <- lift_outcome (update_loop host new_ip lines false false []) ;;
    let (host_found, modified_lines) := r in
    if negb host_found then
      print (lit "Error: Host '" ++ host ++ lit "' not found in config file!") ;;;
      ret false
    else
      open_writelines modified_lines ;;;
      print (lit "Successfully updated HostName for '" ++ host ++ lit "' to '"
             ++ new_ip ++ lit "' in " ++ ssh_config_path self) ;;;
      ret true.

(** *** add_host *)

Definition new_entry (self : VMManager) (new_name : str) : str :=
  let identity_file := path_join (ssh_dir self) (lit "google_compute_engine") in
  let known_hosts_file := path_join (ssh_dir self) (lit "google_compute_known_hosts") in
  let user := get_ssh_user self in
  [NL]
  ++ lit "Host " ++ new_name ++ [NL]
  ++ lit "    HostName 1.1.1.1" ++ [NL]
  ++ lit "    IdentityFile " ++ identity_file ++ [NL]
  ++ lit "    UserKnownHostsFile=" ++ known_hosts_file ++ [NL]
  ++ lit "    IdentitiesOnly=yes" ++ [NL]
  ++ lit "    CheckHostIP=no" ++ [NL]
  ++ lit "    User " ++ user ++ [NL].

Definition add_host (self : VMManager) (new_name : str) : M bool :=
  lines <- open_readlines ;;
  if existsb (fun line => matches false (HOST_NAMED new_name) line) lines then
    print (lit "Error: Host '" ++ new_name ++ lit "' already exists in "
           ++ ssh_config_path self ++ lit "!") ;;;
    ret false
  else
    open_append (new_entry self new_name) ;;;
    print (lit "Successfully added new host '" ++ new_name ++ lit "' to "
           ++ ssh_config_path self) ;;;
    ret true.

(** *** start_vm *)

Definition start_vm (self : VMManager) (instance : str) : M bool :=
  try_except
    (pz <- get_project_and_zone self ;;
     let (project, zone) := pz in
     print (lit "Starting VM: " ++ instance ++ lit "...") ;;;
     start_result <- gcp_utils.start_instance instance project zone ;;
     print start_result ;;;
     if contains (lit "Error") start_result then
       print (lit "Failed to start the VM.") ;;;
       ret false
     else
       print (lit "Retrieving public IP for VM: " ++ instance ++ lit "...") ;;;
       public_ip <- gcp_utils.get_public_ip instance project zone ;;
       if contains (lit "Error") public_ip then
         print (lit "Failed to retrieve the public IP.") ;;;
         ret false
       else
         print (lit "Public IP obtained: " ++ public_ip) ;;;
         update_success <- add_host self instance ;;
         update_success <- update_hostname self instance public_ip ;;
         if update_success then
           print (lit "Successfully updated SSH config for " ++ instance
                  ++ lit " with new IP: " ++ public_ip) ;;;
           ret true
         else ret false)
    is_Exception
    (fun e => print_error_occurred e ;;; ret false).

(** *** main

    [argparse] has done its work when the body of [main] runs: [args] is
    what [parser.parse_args()] returned, a sub-command with its arguments
    or no sub-command at all ([args.command] is None).  [self] is the
    manager [VMManager()] builds, and [help] the text [parser.print_help()]
    prints.  The value returned is the status the process ends with: 0
    when [main] returns, 1 where it calls [sys.exit(1)], which nothing
    follows and no handler catches.  A [SystemExit] raised further down
    ([sys.exit] with a message) is left to the interpreter as it is. *)

Inductive arguments :=
| ArgList
| ArgUpdate (host new_ip : str)
| ArgAdd (new_name : str)
| ArgStart (instance : str)
| ArgNone.

(** [for entry in hostnames: print(entry)] *)
Fixpoint print_each (entries : list str) : M unit :=
  match entries with
  | [] => ret tt
  | entry :: entries' => print entry ;;; print_each entries'
  end.

Definition main (help : str) (self : VMManager) (args : arguments) : M Z :=
  try_except
    (match args with
     | ArgList =>
         hostnames <- list_hostnames self ;;
         match hostnames with
         | _ :: _ =>
             print (lit "Configured Hosts:") ;;;
             print_each hostnames ;;;
             ret 0%Z
         | [] =>
             print (lit "No hostnames found in the SSH config file.") ;;;
             ret 0%Z
         end
     | ArgUpdate host new_ip =>
         update_hostname self host new_ip ;;;
         ret 0%Z
     | ArgAdd new_name =>
         add_host self new_name ;;;
         ret 0%Z
     | ArgStart instance =>
         start_vm self instance ;;;
         ret 0%Z
     | ArgNone =>
         print help ;;;
         ret 1%Z
     end)
    is_Exception
    (fun e => print_error_occurred e ;;; ret 1%Z).

(** *** The script of gcp_utils.py

    The block under [if __name__ == "__main__"], once [argparse] has
    accepted the action (one of [choices]).  The options [--instance],
    [--project] and [--zone] are not required: one that is left out is
    [None], goes into the command as it is, and [subprocess.run] raises
    [TypeError] on it, which [run_command] does not catch. *)

Definition choices : list str := [lit "start"; lit "stop"; lit "ip"].

Definition str_eqb (a b : str) : bool :=
  if list_eq_dec ascii_dec a b then true else false.

(** A function of the module called with the three options as the parser
    left them. *)
Definition with_options (f : str -> str -> str -> M str)
    (instance project zone : option str) : M str :=
  match instance, project, zone with
  | Some i, Some p, Some z => f i p z
  | _, _, _ => raise TypeError
  end.

Definition gcp_utils_main (action : str) (instance project zone : option str) : M unit :=
  if str_eqb action (lit "stop") then
    text <- with_options gcp_utils.stop_instance instance project zone ;;
    print text
  else if str_eqb action (lit "describe") then
    text <- with_options gcp_utils.get_public_ip instance project zone ;;
    print text
  else if str_eqb action (lit "start") then
    text <- with_options gcp_utils.start_instance instance project zone ;;
    print text
  else ret tt.

(** ** Declarative view of the SSH config document *)

Definition is_host_line (l : str) : bool := matches true HOST l.
Definition is_target (host l : str) : bool := matches true (HOST_NAMED host) l.
Definition is_hostname_line (l : str) : bool := matches true HOSTNAME l.

(** The scan state after the lines [pre]: whether the last [Host] line
    among them names [host]. *)
Definition flag (host : str) (pre : list str) : bool :=
  match find is_host_line (rev pre) with
  | Some h => is_target host h
  | None => false
  end.

(** Line [i] lies in a block of [host]: the last [Host] line at or above
    it names [host]. *)
Definition in_block (host : str) (lines : list str) (i : nat) : bool :=
  flag host (firstn (S i) lines).

(** A line of text: it ends with the only line feed it has. *)
Definition is_line (l : str) : bool :=
  match rev l with
  | c :: body => is_nl c && forallb (fun c => negb (is_nl c)) body
  | [] => false
  end.

Definition no_nl (s : str) : bool := forallb (fun c => negb (is_nl c)) s.
Definition no_cr (s : str) : bool := forallb (fun c => negb (is_cr c)) s.
Definition no_backslash (s : str) : bool :=
  forallb (fun c => negb (Ascii.eqb c BACKSLASH)) s.

(** A text on one line: neither a line feed nor a carriage return. *)
Definition no_break (s : str) : bool := no_nl s && no_cr s.

(** A line the editor does not interpret, ended by a line feed and
    without a carriage return. *)
Definition other_line (l : str) : bool :=
  is_line l && no_cr l && negb (is_host_line l) && negb (is_hostname_line l).

(** A [HostName] line as the tool writes it: indentation, the keyword,
    white space, a value that starts with a visible character. *)
Definition hostname_line (indent gap value : str) : str :=
  indent ++ lit "HostName" ++ gap ++ value ++ [NL].



(** The shape of the lines of a text: every line ends with the only line
    feed it has, but for the last one, which may be a non-empty text
    without line feed. *)
Inductive shaped : list str -> Prop :=
| shaped_nil : shaped []
| shaped_last body : no_nl body = true -> body <> [] -> shaped [body]
| shaped_cons body ls :
    no_nl body = true -> shaped ls -> shaped ((body ++ [NL]) :: ls).


Definition is_value (v : str) : bool :=
  match v with
  | c :: _ => negb (is_space c) && no_nl v
  | [] => false
  end.

Definition is_gap (g : str) : bool :=
  match g with
  | _ :: _ => forallb is_space g
  | [] => false
  end.

Definition is_indent (s : str) : bool := forallb is_space s.



(** A [Host] line as the tool writes it. *)
Definition host_line (indent gap name : str) : str :=
  indent ++ lit "Host" ++ gap ++ name ++ [NL].

(** The repetition of class [k] cannot go on into [s]. *)
Definition stops (k : cls) (s : str) : bool :=
  match s with
  | [] => true
  | a :: _ => negb (in_cls k a)
  end.

(** What the rewriting of a line comes to when the new value has no
    escape in it: group 1, the new value, and what followed the match. *)
Definition sub_line (new_ip l : str) : str :=
  match rmatch_at0 false HOSTNAME_REST l with
  | Some m => group1 l m ++ new_ip ++ skipn (m_end m) l
  | None => l
  end.

(** The lines [update_hostname] collects for [lines], which follow the
    lines [pre], when [f] is what [re.sub] makes of a line. *)
Fixpoint rewritten (host : str) (f : str -> str) (pre lines : list str) : list str :=
  match lines with
  | [] => []
  | l :: ls =>
      (if flag host (pre ++ [l]) && is_hostname_line l then f l else l)
      :: rewritten host f (pre ++ [l]) ls
  end.

(** Group 1 of the two patterns of [list_hostnames]. *)
Definition host_capture (l : str) : option str :=
  option_map (group1 l) (rmatch_at0 true HOST_VALUE l).
Definition hostname_capture (l : str) : option str :=
  option_map (group1 l) (rmatch_at0 true HOSTNAME_VALUE l).

Definition is_some {A} (o : option A) : bool :=
  match o with Some _ => true | None => false end.

(** The current host after the lines [pre]: what the last [Host] line
    among them captured. *)
Definition current_host (pre : list str) : option str :=
  match find (fun l => is_some (host_capture l)) (rev pre) with
  | Some l => host_capture l
  | None => None
  end.

(** The pair a line emits, if any, after the lines [pre]. *)
Definition emits (pre : list str) (l : str) : list str :=
  match hostname_capture l with
  | Some ip =>
      if truthy (current_host (pre ++ [l]))
      then [get_fallback (current_host (pre ++ [l])) [] ++ lit " -> " ++ ip]
      else []
  | None => []
  end.

Fixpoint emitted (pre lines : list str) : list str :=
  match lines with
  | [] => []
  | l :: ls => emits pre l ++ emitted (pre ++ [l]) ls
  end.

(** The world after a print. *)
Definition said (w : world) (s : str) : world :=
  set_stdout w (stdout w ++ [Say s]).

(** The lines of [new_entry] below its HostName line. *)
Definition entry_tail (self : VMManager) : str :=
  lit "    IdentityFile " ++ path_join (ssh_dir self) (lit "google_compute_engine") ++ [NL]
  ++ lit "    UserKnownHostsFile=" ++ path_join (ssh_dir self) (lit "google_compute_known_hosts")
  ++ [NL]
  ++ lit "    IdentitiesOnly=yes" ++ [NL]
  ++ lit "    CheckHostIP=no" ++ [NL]
  ++ lit "    User " ++ get_ssh_user self ++ [NL].

(** The Host line and the HostName line of [new_entry]. *)
Definition entry_host_line (name : str) : str := host_line [] (lit " ") name.
Definition entry_hostname_line (ip : str) : str := hostname_line (lit "    ") (lit " ") ip.

(** The text [run_command] makes of a finished command. *)
Definition command_text (r : completed) : str :=
  if (returncode r =? 0)%Z then strip (proc_stdout r)
  else lit "Error: " ++ strip (proc_stderr r).

Definition start_command (instance project zone : str) : list str :=
  [lit "gcloud"; lit "compute"; lit "instances"; lit "start"; instance;
   lit "--project"; project; lit "--zone"; zone].
Definition stop_command (instance project zone : str) : list str :=
  [lit "gcloud"; lit "compute"; lit "instances"; lit "stop"; instance;
   lit "--project"; project; lit "--zone"; zone].
Definition describe_command (instance project zone : str) : list str :=
  [lit "gcloud"; lit "compute"; lit "instances"; lit "describe"; instance;
   lit "--project"; project; lit "--zone"; zone;
   lit "--format=get(networkInterfaces[0].accessConfigs[0].natIP)"].

(** What [start_vm] does once it has the address: the two edits and the
    last message. *)
Definition edit_config (self : VMManager) (instance public_ip : str) : M bool :=
  update_success <- add_host self instance ;;
  update_success <- update_hostname self instance public_ip ;;
  if update_success then
    print (lit "Successfully updated SSH config for " ++ instance
           ++ lit " with new IP: " ++ public_ip) ;;;
    ret true
  else ret false.

(** The lines of [entry_tail]. *)
Definition entry_tail_lines (self : VMManager) : list str :=
  [lit "    IdentityFile " ++ path_join (ssh_dir self) (lit "google_compute_engine") ++ [NL];
   lit "    UserKnownHostsFile="
     ++ path_join (ssh_dir self) (lit "google_compute_known_hosts") ++ [NL];
   line "    IdentitiesOnly=yes";
   line "    CheckHostIP=no";
   lit "    User " ++ get_ssh_user self ++ [NL]].

(** The block of [new_entry], after the line feed it starts with, with
    [ip] where the placeholder is. *)
Definition entry_block (self : VMManager) (name ip : str) : str :=
  (lit "Host " ++ name ++ [NL]) ++ (lit "    HostName " ++ ip ++ [NL])
  ++ entry_tail self.

(** A text has no white space at either end. *)
Definition trimmed (t : str) : Prop :=
  (forall c rest, t = c :: rest -> is_space c = false)
  /\ (forall init c, t = init ++ [c] -> is_space c = false).

(** ** Sample inputs

    The configuration of the specification's examples, and a manager and
    a world to run the operations in. *)

Definition two_blocks : str :=
  line "Host a" ++ line "HostName 10.0.0.1" ++ line "Host b" ++ line "HostName 10.0.0.2".

Definition sample_self : VMManager :=
  {| home := lit "/home/user";
     config := {| cfg_ssh_config := None; cfg_user := Some (lit "alice");
                  cfg_project := Some (lit "proj"); cfg_zone := Some (lit "zone-1") |} |}.

(** Every external command succeeds and prints [text]. *)
Definition sample_world (file : option str) (text : str) : world :=
  {| ssh_config := file; stdout := []; writes := 0;
     subprocess_run := fun _ => {| returncode := 0%Z; proc_stdout := text; proc_stderr := [] |} |}.

(** Every external command fails with [text] on its error stream. *)
Definition failing_world (file : option str) (text : str) : world :=
  {| ssh_config := file; stdout := []; writes := 0;
     subprocess_run := fun _ => {| returncode := 1%Z; proc_stdout := []; proc_stderr := text |} |}.

(** * Proofs *)

(** ** The model on small inputs *)

(** Group 1 of the Host pattern keeps what follows the name up to the
    line feed. *)
Example host_capture_keeps_trailing_space :
  host_capture (line "Host a  ") = Some (lit "a  ").
Proof. reflexivity. Qed.

Example host_capture_of_hostname_line :
  host_capture (line "HostName 10.0.0.1") = None
  /\ hostname_capture (line "hostname 10.0.0.1") = Some (lit "10.0.0.1").
Proof. split; reflexivity. Qed.

(** The test for the target block allows white space, and nothing else,
    after the name. *)
Example is_target_examples :
  is_target (lit "a") (line "  host A   ") = true
  /\ is_target (lit "a") (line "Host a b") = false
  /\ is_target (lit "a") (line "Host ab") = false.
Proof. repeat split. Qed.

(** [re.sub] is not given re.IGNORECASE: a line spelled [hostname] passes
    the test of the scan and is written back as it was. *)
Example sub_is_case_sensitive :
  is_hostname_line (line "hostname 10.0.0.1") = true
  /\ sub false HOSTNAME_REST (lit "\g<1>2.2.2.2") (line "hostname 10.0.0.1")
     = Some (line "hostname 10.0.0.1")
  /\ sub false HOSTNAME_REST (lit "\g<1>2.2.2.2") (line "  HostName 10.0.0.1")
     = Some (line "  HostName 2.2.2.2").
Proof. repeat split. Qed.

Example parse_template_examples :
  parse_template (lit "\g<1>2.2.2.2") = Some (TGroup 1 :: map TLit (lit "2.2.2.2"))
  /\ parse_template (lit "\g<1>a" ++ [BACKSLASH]) = None
  /\ parse_template (lit "\g<2>") = None
  /\ parse_template (lit "\101\1") = Some [TLit "A"%char; TGroup 1].
Proof. repeat split. Qed.

Example readlines_example :
  readlines (line "Host a" ++ lit "HostName x") = [line "Host a"; lit "HostName x"].
Proof. reflexivity. Qed.

(** ** Lines *)

Lemma is_nl_true c : is_nl c = true -> c = NL.
Proof. unfold is_nl. intros H. apply Ascii.eqb_eq in H. exact H. Qed.

Lemma concat_splitlines s : concat (splitlines s) = s.
Proof.
  induction s as [|c s IH]; simpl; [reflexivity|].
  destruct (is_nl c); simpl; [now rewrite IH|].
  destruct (splitlines s) as [|l ls]; simpl in *.
  - now rewrite <- IH.
  - now rewrite <- IH.
Qed.

Lemma splitlines_body body rest :
  no_nl body = true ->
  splitlines (body ++ NL :: rest) = (body ++ [NL]) :: splitlines rest.
Proof.
  induction body as [|c body IH]; simpl; intros H.
  - reflexivity.
  - apply andb_true_iff in H as [Hc Hb].
    apply negb_true_iff in Hc. rewrite Hc, (IH Hb). reflexivity.
Qed.

Lemma is_line_inv l :
  is_line l = true -> exists body, l = body ++ [NL] /\ no_nl body = true.
Proof.
  unfold is_line. destruct (rev l) as [|c b] eqn:E; [discriminate|].
  intros H. apply andb_true_iff in H as [Hc Hb]. apply is_nl_true in Hc. subst c.
  exists (rev b). split.
  - rewrite <- (rev_involutive l), E. reflexivity.
  - unfold no_nl. rewrite forallb_forall in *. intros x Hx. apply Hb.
    now apply in_rev.
Qed.

Lemma is_line_intro body : no_nl body = true -> is_line (body ++ [NL]) = true.
Proof.
  intros H. unfold is_line. rewrite rev_app_distr. simpl.
  unfold no_nl in H. rewrite forallb_forall in *. intros x Hx. apply H.
  now apply in_rev.
Qed.

Lemma splitlines_line l rest :
  is_line l = true -> splitlines (l ++ rest) = l :: splitlines rest.
Proof.
  intros H. apply is_line_inv in H as (body & -> & Hb).
  rewrite <- app_assoc. simpl. now apply splitlines_body.
Qed.

Lemma splitlines_concat ls :
  Forall (fun l => is_line l = true) ls -> splitlines (concat ls) = ls.
Proof.
  induction 1 as [|l ls Hl _ IH]; simpl; [reflexivity|].
  now rewrite splitlines_line, IH.
Qed.

(** Text appended after a line feed starts on a line of its own. *)
Lemma splitlines_app_nl a b :
  splitlines (a ++ NL :: b) = splitlines (a ++ [NL]) ++ splitlines b.
Proof.
  induction a as [|c a IH]; simpl; [reflexivity|].
  destruct (is_nl c); simpl; [now rewrite IH|].
  rewrite IH.
  destruct (splitlines (a ++ [NL])) as [|l ls] eqn:E; simpl; [|reflexivity].
  exfalso. apply (f_equal (@concat ascii)) in E. rewrite concat_splitlines in E.
  simpl in E. now destruct a.
Qed.

Lemma splitlines_nl s :
  exists init z rest,
    splitlines (s ++ [NL]) = init ++ [z] /\ splitlines s = init ++ rest.
Proof.
  induction s as [|c s (init & z & rest & E1 & E2)].
  - now exists [], [NL], [].
  - simpl. destruct (is_nl c).
    + exists ([c] :: init), z, rest. now rewrite E1, E2.
    + rewrite E1, E2. destruct init as [|l init].
      * exists [], (c :: z), (match rest with [] => [[c]] | l :: ls => (c :: l) :: ls end).
        split; reflexivity.
      * exists ((c :: l) :: init), z, rest. split; reflexivity.
Qed.

(** What [splitlines] returns has the shape of the lines of a text, and
    a list of that shape is what [splitlines] makes of its
    concatenation. *)
Lemma splitlines_shaped s : shaped (splitlines s).
Proof.
  induction s as [|c s IH]; simpl; [constructor|].
  destruct (is_nl c) eqn:Ec.
  - apply is_nl_true in Ec. subst c. now apply (shaped_cons []).
  - destruct (splitlines s) as [|l ls]; [|inversion IH; subst].
    + apply shaped_last; [simpl; now rewrite Ec|discriminate].
    + apply shaped_last; [simpl; rewrite Ec; assumption|discriminate].
    + apply (shaped_cons (c :: body)); [simpl; rewrite Ec|]; assumption.
Qed.




(** ** Line ends *)

Lemma is_cr_true c : is_cr c = true -> c = CR.
Proof. unfold is_cr. intros H. apply Ascii.eqb_eq in H. exact H. Qed.

Lemma no_cr_app a b : no_cr (a ++ b) = no_cr a && no_cr b.
Proof. apply forallb_app. Qed.

Lemma no_cr_concat ls :
  Forall (fun l => no_cr l = true) ls -> no_cr (concat ls) = true.
Proof.
  induction 1 as [|l ls Hl _ IH]; simpl; [reflexivity|].
  rewrite no_cr_app, Hl, IH. reflexivity.
Qed.

Lemma no_cr_concat_inv ls :
  no_cr (concat ls) = true -> Forall (fun l => no_cr l = true) ls.
Proof.
  induction ls as [|l ls IH]; simpl; intros H; constructor.
  - rewrite no_cr_app in H. now apply andb_true_iff in H as [H _].
  - apply IH. rewrite no_cr_app in H. now apply andb_true_iff in H as [_ H].
Qed.

Lemma translate_app b s t :
  translate_from b (s ++ t) = translate_from b s ++ translate_from (ends_cr b s) t.
Proof.
  revert b. induction s as [|c s IH]; intros b; simpl; [reflexivity|].
  destruct (is_cr c); simpl; [now rewrite IH|].
  destruct (is_nl c); [destruct b|]; simpl; now rewrite IH.
Qed.

(** What is read holds no carriage return. *)
Lemma translate_no_cr b s : no_cr (translate_from b s) = true.
Proof.
  revert b. induction s as [|c s IH]; intros b; simpl; [reflexivity|].
  destruct (is_cr c) eqn:Ec; simpl; [apply IH|].
  destruct (is_nl c); [destruct b|]; simpl; rewrite ?Ec; simpl; apply IH.
Qed.

(** A text without carriage return is read as it is. *)
Lemma translate_id s : no_cr s = true -> translate_from false s = s.
Proof.
  induction s as [|c s IH]; simpl; intros H; [reflexivity|].
  apply andb_true_iff in H as [Hc Hs]. apply negb_true_iff in Hc. rewrite Hc.
  destruct (is_nl c) eqn:En; [apply is_nl_true in En; subst c|]; now rewrite (IH Hs).
Qed.

Lemma ends_cr_no_cr s : no_cr s = true -> ends_cr false s = false.
Proof.
  induction s as [|c s IH]; simpl; intros H; [reflexivity|].
  apply andb_true_iff in H as [Hc Hs]. apply negb_true_iff in Hc. rewrite Hc.
  now apply IH.
Qed.

(** After a carriage return the text read so far ends with a line feed. *)
Lemma ends_cr_translate b s :
  ends_cr b s = true ->
  (s = [] /\ b = true) \/ exists x, translate_from b s = x ++ [NL].
Proof.
  revert b. induction s as [|c s IH]; intros b; simpl; intros H; [now left|].
  right. destruct (IH _ H) as [[-> Ec]|[x Ex]].
  - rewrite Ec. now exists [].
  - destruct (is_cr c).
    + rewrite Ex. now exists (NL :: x).
    + destruct (is_nl c); [destruct b|]; rewrite Ex.
      * now exists x.
      * now exists (NL :: x).
      * now exists (c :: x).
Qed.

Lemma translate_nl b rest :
  translate_from b (NL :: rest) = (if b then [] else [NL]) ++ translate_from false rest.
Proof. destruct b; reflexivity. Qed.

Lemma universal_newlines_no_cr s : no_cr (universal_newlines s) = true.
Proof. apply translate_no_cr. Qed.

Lemma universal_newlines_id s : no_cr s = true -> universal_newlines s = s.
Proof. apply translate_id. Qed.

(** The text read after a line feed does not depend on what came before it. *)
Lemma universal_newlines_app_nl a b :
  universal_newlines (a ++ NL :: b)
  = universal_newlines (a ++ [NL]) ++ universal_newlines b.
Proof.
  unfold universal_newlines. rewrite !translate_app, !translate_nl.
  cbn [translate_from]. now rewrite app_nil_r, app_assoc.
Qed.

(** The text read once a line feed is added ends with a line feed. *)
Lemma universal_newlines_snoc a :
  exists x, universal_newlines (a ++ [NL]) = x ++ [NL].
Proof.
  unfold universal_newlines. rewrite translate_app, translate_nl.
  cbn [translate_from]. rewrite app_nil_r.
  destruct (ends_cr false a) eqn:E.
  - destruct (ends_cr_translate _ _ E) as [[_ ?]|[x Ex]]; [discriminate|].
    rewrite Ex, app_nil_r. now exists x.
  - now exists (translate_from false a).
Qed.

(** ** The lines read *)

Lemma concat_readlines s : concat (readlines s) = universal_newlines s.
Proof. apply concat_splitlines. Qed.

Lemma readlines_plain s : no_cr s = true -> readlines s = splitlines s.
Proof. intros H. unfold readlines. now rewrite universal_newlines_id. Qed.

Lemma readlines_shaped s : shaped (readlines s).
Proof. apply splitlines_shaped. Qed.

Lemma readlines_no_cr s : Forall (fun l => no_cr l = true) (readlines s).
Proof.
  apply no_cr_concat_inv. rewrite concat_readlines. apply universal_newlines_no_cr.
Qed.


Lemma readlines_line l rest :
  is_line l = true -> no_cr l = true ->
  readlines (l ++ rest) = l :: readlines rest.
Proof.
  intros Hl Hc. unfold readlines, universal_newlines.
  rewrite translate_app, (translate_id _ Hc), (ends_cr_no_cr _ Hc).
  now apply splitlines_line.
Qed.

Lemma readlines_concat ls :
  Forall (fun l => is_line l = true) ls -> no_cr (concat ls) = true ->
  readlines (concat ls) = ls.
Proof.
  intros Hl Hc. rewrite readlines_plain by assumption.
  now apply splitlines_concat.
Qed.

(** Text appended after a line feed starts on a line of its own. *)
Lemma readlines_app_nl a b :
  readlines (a ++ NL :: b) = readlines (a ++ [NL]) ++ readlines b.
Proof.
  unfold readlines. rewrite universal_newlines_app_nl.
  destruct (universal_newlines_snoc a) as [x ->].
  rewrite <- app_assoc. cbn [app]. apply splitlines_app_nl.
Qed.

(** ** The matcher *)

Lemma ascii_cases (P : ascii -> Prop) :
  (forall b0 b1 b2 b3 b4 b5 b6 b7, P (Ascii b0 b1 b2 b3 b4 b5 b6 b7)) ->
  forall c, P c.
Proof. intros H [b0 b1 b2 b3 b4 b5 b6 b7]. apply H. Qed.

Ltac by_cases_on_ascii c :=
  pattern c; apply ascii_cases;
  intros [] [] [] [] [] [] [] []; vm_compute; try reflexivity; try discriminate; auto.

Lemma lower_space c : is_space (lower c) = is_space c.
Proof. by_cases_on_ascii c. Qed.

Lemma chr_eq_refl ic c : chr_eq ic c c = true.
Proof. unfold chr_eq. destruct ic; apply Ascii.eqb_refl. Qed.

(** A character that is not white space never matches white space, with
    or without re.IGNORECASE. *)
Lemma chr_eq_space ic c a :
  is_space c = false -> is_space a = true -> chr_eq ic c a = false.
Proof.
  intros Hc Ha. unfold chr_eq. destruct ic.
  - destruct (Ascii.eqb (lower c) (lower a)) eqn:E; [|reflexivity].
    apply Ascii.eqb_eq in E.
    rewrite <- (lower_space c), E, lower_space, Ha in Hc. discriminate.
  - destruct (Ascii.eqb c a) eqn:E; [|reflexivity].
    apply Ascii.eqb_eq in E. subst. congruence.
Qed.

Section Star.
Variable k : cls.
Variable rest : cont.

Lemma star_stops pos s : stops k s = true -> star k rest pos s = rest pos s.
Proof.
  destruct s as [|a s]; simpl; [reflexivity|].
  intros H. apply negb_true_iff in H. now rewrite H.
Qed.

(** Backtracking finds a match whenever some split has one. *)
Lemma star_some pos s : rest pos s <> None -> star k rest pos s <> None.
Proof.
  destruct s as [|a s]; simpl; [easy|].
  destruct (in_cls k a); [|easy].
  destruct (star k rest (S pos) s); easy.
Qed.

Lemma star_complete w : forall pos s,
  forallb (in_cls k) w = true ->
  rest (pos + length w) s <> None ->
  star k rest pos (w ++ s) <> None.
Proof.
  induction w as [|a w IH]; simpl; intros pos s Hw Hr.
  - rewrite Nat.add_0_r in Hr. now apply star_some.
  - apply andb_true_iff in Hw as [Ha Hw]. rewrite Ha.
    specialize (IH (S pos) s Hw).
    rewrite Nat.add_succ_r in Hr. simpl in IH.
    destruct (star k rest (S pos) (w ++ s)); [easy|]. now apply IH in Hr.
Qed.

(** The longest repetition wins when the rest of the pattern accepts
    after it. *)
Lemma star_max w : forall pos s m,
  forallb (in_cls k) w = true ->
  stops k s = true ->
  rest (pos + length w) s = Some m ->
  star k rest pos (w ++ s) = Some m.
Proof.
  induction w as [|a w IH]; simpl; intros pos s m Hw Hs Hr.
  - rewrite Nat.add_0_r in Hr. now rewrite star_stops.
  - apply andb_true_iff in Hw as [Ha Hw]. rewrite Ha.
    rewrite Nat.add_succ_r in Hr. now rewrite (IH (S pos) s m).
Qed.

(** When the rest of the pattern cannot start with a character of the
    class, the repetition takes them all. *)
Lemma star_skip w : forall pos s,
  (forall pos a s, in_cls k a = true -> rest pos (a :: s) = None) ->
  forallb (in_cls k) w = true ->
  stops k s = true ->
  star k rest pos (w ++ s) = rest (pos + length w) s.
Proof.
  induction w as [|a w IH]; simpl; intros pos s Hk Hw Hs.
  - rewrite Nat.add_0_r. now apply star_stops.
  - apply andb_true_iff in Hw as [Ha Hw]. rewrite Ha.
    rewrite (IH (S pos) s Hk Hw Hs). rewrite Nat.add_succ_r. simpl.
    destruct (rest (S (pos + length w)) s); [reflexivity|]. now apply Hk.
Qed.
End Star.

Lemma star_mono k (r1 r2 : cont) :
  (forall pos s, r1 pos s <> None -> r2 pos s <> None) ->
  forall s pos, star k r1 pos s <> None -> star k r2 pos s <> None.
Proof.
  intros H. induction s as [|a s IH]; simpl; intros pos; [apply H|].
  destruct (in_cls k a); [|apply H].
  specialize (IH (S pos)).
  destruct (star k r1 (S pos) s).
  - intros _. destruct (star k r2 (S pos) s); [easy|]. now exfalso; apply IH.
  - intros Hr. destruct (star k r2 (S pos) s); [easy|]. now apply H.
Qed.

(** A line that matches a pattern matches every beginning of it
    ([re.match] does not anchor the end). *)
Lemma exec_prefix ic p q : forall g pos s,
  exec ic (p ++ q) g pos s <> None -> exec ic p g pos s <> None.
Proof.
  induction p as [|i p IH]; intros g pos s; [simpl; easy|].
  destruct i; simpl.
  - destruct (pos =? 0); [apply IH|easy].
  - destruct s as [|c [|d s]]; try apply IH; [|easy].
    destruct (is_nl c); [apply IH|easy].
  - destruct s as [|a s]; [easy|]. destruct (chr_eq ic c a); [apply IH|easy].
  - apply star_mono. intros pos' s'. apply IH.
  - destruct s as [|a s]; [easy|]. destruct (in_cls k a); [|easy].
    apply star_mono. intros pos' s'. apply IH.
  - apply IH.
  - apply IH.
Qed.

Lemma exec_lits ic cs : forall p g pos s,
  exec ic (map Lit cs ++ p) g pos (cs ++ s) = exec ic p g (pos + length cs) s.
Proof.
  induction cs as [|c cs IH]; simpl; intros p g pos s.
  - now rewrite Nat.add_0_r.
  - rewrite chr_eq_refl, IH. now rewrite Nat.add_succ_r.
Qed.

Lemma exec_lit_space ic c p g pos a s :
  is_space c = false -> is_space a = true ->
  exec ic (Lit c :: p) g pos (a :: s) = None.
Proof. intros Hc Ha. simpl. now rewrite chr_eq_space. Qed.

Lemma matches_prefix ic p q s :
  matches ic (p ++ q) s = true -> matches ic p s = true.
Proof.
  unfold matches, rmatch_at0. intros H.
  pose proof (@exec_prefix ic p q (0, 0) 0 s) as E.
  destruct (exec ic (p ++ q) (0, 0) 0 s); [|discriminate].
  destruct (exec ic p (0, 0) 0 s); [reflexivity|]. now exfalso; apply E.
Qed.

(** The test for the target block only succeeds on a [Host] line. *)
Lemma is_target_host_line host l : is_target host l = true -> is_host_line l = true.
Proof.
  unfold is_target, is_host_line. intros H.
  apply (@matches_prefix true HOST (escape host ++ [Star Space; Eol])).
  exact H.
Qed.

(** ** The patterns of the source on the lines the tool writes *)

Lemma firstn_length_app {A} (a b : list A) : firstn (length a) (a ++ b) = a.
Proof. induction a; simpl; [now destruct b|now f_equal]. Qed.

Lemma skipn_length_app {A} (a b : list A) : skipn (length a) (a ++ b) = b.
Proof. induction a; simpl; auto. Qed.

(** [^\s*KEYWORD\s+(.+)] on [indent KEYWORD gap value]: group 1 is the
    value. *)
Lemma keyword_value ic kw indent gap v :
  is_indent indent = true -> is_gap gap = true -> is_value v = true ->
  stops Space kw = true -> kw <> [] ->
  rmatch_at0 ic (Bol :: Star Space :: map Lit kw ++ [Plus Space; Open; Plus Dot; Close])
    (indent ++ kw ++ gap ++ v ++ [NL])
  = Some {| m_end := length (indent ++ kw ++ gap) + length v;
            m_g1 := (length (indent ++ kw ++ gap),
                     length (indent ++ kw ++ gap) + length v) |}.
Proof.
  intros Hi Hg Hv Hk Hne. unfold rmatch_at0.
  change (exec ic (Bol :: Star Space :: ?p) ?g 0 ?s) with (star Space (exec ic p g) 0 s).
  rewrite star_skip; trivial.
  2:{ intros pos a s Ha. destruct kw as [|c kw]; [easy|].
      simpl in Hk. apply negb_true_iff in Hk. now apply exec_lit_space. }
  2:{ destruct kw; [easy|exact Hk]. }
  rewrite exec_lits.
  destruct gap as [|a gap]; [discriminate|]. simpl in Hg.
  apply andb_true_iff in Hg as [Ha Hg].
  change (exec ic (Plus Space :: ?p) ?g ?pos ((a :: gap) ++ ?s))
    with (if in_cls Space a then star Space (exec ic p g) (S pos) (gap ++ s) else None).
  simpl in_cls. rewrite Ha.
  destruct v as [|c v]; [discriminate|]. simpl in Hv.
  apply andb_true_iff in Hv as [Hc Hv]. apply andb_true_iff in Hv as [Hcn Hv].
  apply star_max; trivial.
  change (exec ic [Open; Plus Dot; Close] ?g ?pos ((c :: v) ++ ?s))
    with (if in_cls Dot c then star Dot (exec ic [Close] (pos, snd g)) (S pos) (v ++ s) else None).
  simpl in_cls. rewrite Hcn.
  rewrite star_max with (m := {| m_end := S (0 + length indent + length kw + length gap) + S (length v);
                                 m_g1 := (S (0 + length indent + length kw + length gap),
                                          S (0 + length indent + length kw + length gap) + S (length v)) |}).
  - repeat rewrite length_app. simpl. repeat f_equal; lia.
  - exact Hv.
  - reflexivity.
  - simpl. repeat f_equal; lia.
Qed.

(** Group 1 of that match. *)
Lemma keyword_value_group ic kw indent gap v :
  is_indent indent = true -> is_gap gap = true -> is_value v = true ->
  stops Space kw = true -> kw <> [] ->
  option_map (group1 (indent ++ kw ++ gap ++ v ++ [NL]))
    (rmatch_at0 ic (Bol :: Star Space :: map Lit kw ++ [Plus Space; Open; Plus Dot; Close])
       (indent ++ kw ++ gap ++ v ++ [NL]))
  = Some v.
Proof.
  intros. rewrite keyword_value; trivial. simpl. f_equal.
  unfold group1, slice. simpl.
  replace (indent ++ kw ++ gap ++ v ++ [NL]) with ((indent ++ kw ++ gap) ++ v ++ [NL])
    by now rewrite <- !app_assoc.
  rewrite skipn_length_app.
  replace (length (indent ++ kw ++ gap) + length v - length (indent ++ kw ++ gap))
    with (length v) by lia.
  apply firstn_length_app.
Qed.

(** [^\s*KEYWORD\s+ ...] fails on a line whose first word goes on after
    the keyword, and on a line whose first word is shorter. *)
Lemma keyword_longer ic kw c more indent p s :
  is_indent indent = true -> stops Space kw = true -> kw <> [] ->
  is_space c = false ->
  rmatch_at0 ic (Bol :: Star Space :: map Lit kw ++ Plus Space :: p)
    (indent ++ kw ++ c :: more ++ s) = None.
Proof.
  intros Hi Hk Hne Hc. unfold rmatch_at0.
  change (exec ic (Bol :: Star Space :: ?p) ?g 0 ?s) with (star Space (exec ic p g) 0 s).
  rewrite star_skip; trivial.
  2:{ intros pos a s' Ha. destruct kw as [|c' kw]; [easy|].
      simpl in Hk. apply negb_true_iff in Hk. now apply exec_lit_space. }
  2:{ destruct kw; [easy|exact Hk]. }
  rewrite exec_lits. simpl. now rewrite Hc.
Qed.

Lemma keyword_shorter ic kw c more indent gap p s :
  is_indent indent = true -> stops Space kw = true -> kw <> [] ->
  is_gap gap = true -> is_space c = false ->
  rmatch_at0 ic (Bol :: Star Space :: map Lit (kw ++ c :: more) ++ p)
    (indent ++ kw ++ gap ++ s) = None.
Proof.
  intros Hi Hk Hne Hg Hc. unfold rmatch_at0.
  change (exec ic (Bol :: Star Space :: ?p) ?g 0 ?s) with (star Space (exec ic p g) 0 s).
  rewrite star_skip; trivial.
  2:{ intros pos a s' Ha. destruct kw as [|c' kw]; [easy|].
      simpl in Hk. apply negb_true_iff in Hk. now apply exec_lit_space. }
  2:{ destruct kw; [easy|exact Hk]. }
  rewrite map_app, <- app_assoc, exec_lits.
  destruct gap as [|a gap]; [discriminate|]. simpl in Hg.
  apply andb_true_iff in Hg as [Ha _].
  apply exec_lit_space; trivial.
Qed.

Lemma hostname_value_hostname_line indent gap v :
  is_indent indent = true -> is_gap gap = true -> is_value v = true ->
  option_map (group1 (hostname_line indent gap v))
    (rmatch_at0 true HOSTNAME_VALUE (hostname_line indent gap v)) = Some v.
Proof.
  intros. now apply (@keyword_value_group true (lit "HostName") indent gap v).
Qed.

Lemma host_value_host_line indent gap name :
  is_indent indent = true -> is_gap gap = true -> is_value name = true ->
  option_map (group1 (host_line indent gap name))
    (rmatch_at0 true HOST_VALUE (host_line indent gap name)) = Some name.
Proof.
  intros. now apply (@keyword_value_group true (lit "Host") indent gap name).
Qed.

Lemma host_value_hostname_line indent gap v :
  is_indent indent = true ->
  rmatch_at0 true HOST_VALUE (hostname_line indent gap v) = None.
Proof.
  intros.
  now apply (@keyword_longer true (lit "Host") "N"%char (lit "ame") indent
               [Open; Plus Dot; Close] (gap ++ v ++ [NL])).
Qed.

Lemma hostname_value_host_line indent gap name :
  is_indent indent = true -> is_gap gap = true ->
  rmatch_at0 true HOSTNAME_VALUE (host_line indent gap name) = None.
Proof.
  intros.
  now apply (@keyword_shorter true (lit "Host") "N"%char (lit "ame") indent gap
               [Plus Space; Open; Plus Dot; Close] (name ++ [NL])).
Qed.

Lemma is_host_line_hostname_line indent gap v :
  is_indent indent = true -> is_host_line (hostname_line indent gap v) = false.
Proof.
  intros Hi. unfold is_host_line, matches.
  assert (E : rmatch_at0 true HOST (hostname_line indent gap v) = None).
  { now apply (@keyword_longer true (lit "Host") "N"%char (lit "ame") indent
                 [] (gap ++ v ++ [NL])). }
  now rewrite E.
Qed.

Lemma is_hostname_line_hostname_line indent gap v :
  is_indent indent = true -> is_gap gap = true -> is_value v = true ->
  is_hostname_line (hostname_line indent gap v) = true.
Proof.
  intros Hi Hg Hv. unfold is_hostname_line.
  apply (@matches_prefix true HOSTNAME [Open; Plus Dot; Close]).
  unfold matches.
  assert (E : rmatch_at0 true (HOSTNAME ++ [Open; Plus Dot; Close])
                (hostname_line indent gap v) <> None).
  { pose proof (@keyword_value true (lit "HostName") indent gap v Hi Hg Hv) as E.
    unfold HOSTNAME, hostname_line. simpl app at 1. simpl in E. simpl.
    rewrite E; easy. }
  now destruct (rmatch_at0 true (HOSTNAME ++ [Open; Plus Dot; Close])
                  (hostname_line indent gap v)).
Qed.




(** A [Host] line names its host, with or without re.IGNORECASE, whatever
    the name is. *)
Lemma host_named_host_line ic indent gap name :
  is_indent indent = true -> is_gap gap = true ->
  matches ic (HOST_NAMED name) (host_line indent gap name) = true.
Proof.
  intros Hi Hg. unfold matches, rmatch_at0, HOST_NAMED, host_line.
  match goal with |- match ?e with _ => _ end = _ =>
    assert (E : e <> None); [|destruct e; [reflexivity|easy]] end.
  change (exec ic ([Bol; Star Space] ++ ?p) ?g 0 ?s) with (star Space (exec ic p g) 0 s).
  apply star_complete; trivial.
  unfold lits. rewrite exec_lits.
  destruct gap as [|a gap]; [discriminate|]. simpl in Hg.
  apply andb_true_iff in Hg as [Ha Hg].
  change (exec ic ([Plus Space] ++ ?p) ?g ?pos ((a :: gap) ++ ?s))
    with (if in_cls Space a then star Space (exec ic p g) (S pos) (gap ++ s) else None).
  simpl in_cls. rewrite Ha.
  apply star_complete; trivial.
  unfold escape. rewrite exec_lits. simpl. easy.
Qed.

Lemma is_target_host_line_self indent gap name :
  is_indent indent = true -> is_gap gap = true ->
  is_target name (host_line indent gap name) = true.
Proof. apply host_named_host_line. Qed.

(** [(^\s*HostName\s+).*] on a [HostName] line: group 1 ends where the
    value starts, the match ends before the line feed. *)
Lemma hostname_rest_line indent gap v :
  is_indent indent = true -> is_gap gap = true -> is_value v = true ->
  rmatch_at0 false HOSTNAME_REST (hostname_line indent gap v)
  = Some {| m_end := length (indent ++ lit "HostName" ++ gap) + length v;
            m_g1 := (0, length (indent ++ lit "HostName" ++ gap)) |}.
Proof.
  intros Hi Hg Hv. unfold rmatch_at0, HOSTNAME_REST, hostname_line.
  change (exec false ([Open; Bol; Star Space] ++ ?p) ?g 0 ?s)
    with (star Space (exec false p g) 0 s).
  rewrite star_skip; trivial.
  2:{ intros pos a s Ha. now apply exec_lit_space. }
  unfold lits. rewrite exec_lits.
  destruct gap as [|a gap]; [discriminate|]. simpl in Hg.
  apply andb_true_iff in Hg as [Ha Hg].
  change (exec false [Plus Space; Close; Star Dot] ?g ?pos ((a :: gap) ++ ?s))
    with (if in_cls Space a
          then star Space (fun pos' s' => star Dot (exec false [] (fst g, pos')) pos' s')
                 (S pos) (gap ++ s)
          else None).
  simpl in_cls. rewrite Ha.
  destruct v as [|c v]; [discriminate|].
  pose proof Hv as Hv'. simpl in Hv'.
  apply andb_true_iff in Hv' as [Hc Hvn].
  apply star_max; trivial.
  unfold is_value in Hv. apply andb_true_iff in Hv as [_ Hv].
  rewrite star_max with (s := [NL])
    (m := {| m_end := S (0 + length indent + length (lit "HostName")) + length gap
                      + length (c :: v);
             m_g1 := (0, S (0 + length indent + length (lit "HostName")) + length gap) |}).
  - repeat rewrite length_app. simpl. repeat f_equal; lia.
  - exact Hv.
  - reflexivity.
  - reflexivity.
Qed.


(** ** Replacement templates without escapes *)

Lemma parse_template_plain s :
  no_backslash s = true -> parse_template s = Some (map TLit s).
Proof.
  induction s as [|c s IH]; simpl; intros H; [reflexivity|].
  apply andb_true_iff in H as [Hc Hs]. rewrite Hc, (IH Hs). reflexivity.
Qed.

Lemma parse_template_g1 ip :
  parse_template (lit "\g<1>" ++ ip) = option_map (cons (TGroup 1)) (parse_template ip).
Proof. reflexivity. Qed.

Lemma expand_lits s line m : expand (map TLit s) line m = s.
Proof.
  unfold expand. induction s as [|c s IH]; simpl; [reflexivity|]. now rewrite IH.
Qed.

(** [re.sub] puts the new value where the old one was. *)
Lemma sub_hostname_line indent gap v new_ip :
  is_indent indent = true -> is_gap gap = true -> is_value v = true ->
  no_backslash new_ip = true ->
  sub false HOSTNAME_REST (lit "\g<1>" ++ new_ip) (hostname_line indent gap v)
  = Some (hostname_line indent gap new_ip).
Proof.
  intros Hi Hg Hv Hip. unfold sub.
  rewrite parse_template_g1, parse_template_plain by exact Hip. simpl option_map.
  rewrite hostname_rest_line by assumption. f_equal.
  unfold expand. simpl map. simpl concat.
  change (concat (map (expand_item ?l ?m) (map TLit new_ip)))
    with (expand (map TLit new_ip) l m).
  rewrite expand_lits. unfold group1, slice. simpl m_g1. simpl m_end. simpl fst. simpl snd.
  rewrite Nat.sub_0_r. simpl skipn at 1.
  unfold hostname_line.
  replace (indent ++ lit "HostName" ++ gap ++ v ++ [NL])
    with ((indent ++ lit "HostName" ++ gap) ++ v ++ [NL]) by now rewrite <- !app_assoc.
  rewrite firstn_length_app.
  replace ((indent ++ lit "HostName" ++ gap) ++ v ++ [NL])
    with (((indent ++ lit "HostName" ++ gap) ++ v) ++ [NL]) by now rewrite <- !app_assoc.
  rewrite <- length_app, skipn_length_app.
  now rewrite <- !app_assoc.
Qed.

(** ** The scan of update_hostname *)

Lemma update_loop_cons host new_ip l ls hf it acc :
  update_loop host new_ip (l :: ls) hf it acc =
  let it' := if is_host_line l then is_target host l else it in
  let hf' := if is_host_line l then hf || it' else hf in
  if it' && is_hostname_line l then
    match sub false HOSTNAME_REST (lit "\g<1>" ++ new_ip) l with
    | Some ml => update_loop host new_ip ls hf' it' (acc ++ [ml])
    | None => Raised TemplateError
    end
  else update_loop host new_ip ls hf' it' (acc ++ [l]).
Proof. reflexivity. Qed.

Lemma flag_nil host : flag host [] = false.
Proof. reflexivity. Qed.

Lemma flag_snoc host pre l :
  flag host (pre ++ [l]) = if is_host_line l then is_target host l else flag host pre.
Proof.
  unfold flag. rewrite rev_app_distr. simpl.
  destruct (is_host_line l); reflexivity.
Qed.

Lemma flag_true_target host pre :
  flag host pre = true -> existsb (is_target host) pre = true.
Proof.
  unfold flag. destruct (find is_host_line (rev pre)) as [h|] eqn:E; [|discriminate].
  intros H. apply find_some in E as [Hin _]. apply in_rev in Hin.
  apply existsb_exists. now exists h.
Qed.

Lemma flag_false host pre :
  (forall l, In l pre -> is_target host l = false) -> flag host pre = false.
Proof.
  intros H. destruct (flag host pre) eqn:E; [|reflexivity].
  apply flag_true_target in E. apply existsb_exists in E as (l & Hin & Hl).
  rewrite H in Hl; [discriminate|exact Hin].
Qed.

Lemma firstn_S_cons {A} (pre : list A) l ls i :
  pre ++ firstn (S (S i)) (l :: ls) = (pre ++ [l]) ++ firstn (S i) ls.
Proof. simpl. now rewrite <- app_assoc. Qed.

(** The loop, as long as [re.sub] returns on the lines it is called on:
    the host is found when some line names it, and the lines collected
    are [rewritten]. *)
Lemma update_loop_spec host new_ip f : forall lines pre hf acc,
  (forall i l, nth_error lines i = Some l ->
     flag host (pre ++ firstn (S i) lines) = true ->
     is_hostname_line l = true ->
     sub false HOSTNAME_REST (lit "\g<1>" ++ new_ip) l = Some (f l)) ->
  update_loop host new_ip lines hf (flag host pre) acc
  = Returned (hf || existsb (is_target host) lines, acc ++ rewritten host f pre lines).
Proof.
  induction lines as [|l ls IH]; intros pre hf acc H.
  - simpl. now rewrite orb_false_r, app_nil_r.
  - rewrite update_loop_cons. cbv zeta. rewrite <- flag_snoc.
    assert (Hf : (if is_host_line l then hf || flag host (pre ++ [l]) else hf)
                 = hf || is_target host l).
    { rewrite flag_snoc. destruct (is_host_line l) eqn:E; [reflexivity|].
      destruct (is_target host l) eqn:T; [|now rewrite orb_false_r].
      apply is_target_host_line in T. congruence. }
    rewrite Hf.
    assert (Htail : forall i l', nth_error ls i = Some l' ->
       flag host ((pre ++ [l]) ++ firstn (S i) ls) = true ->
       is_hostname_line l' = true ->
       sub false HOSTNAME_REST (lit "\g<1>" ++ new_ip) l' = Some (f l')).
    { intros i l' Hn Hfl Hh. apply (H (S i)); trivial.
      now rewrite firstn_S_cons. }
    simpl rewritten. simpl existsb.
    destruct (flag host (pre ++ [l]) && is_hostname_line l) eqn:E.
    + apply andb_true_iff in E as [E1 E2].
      rewrite (H 0 l eq_refl E1 E2).
      rewrite (IH (pre ++ [l]) _ _ Htail).
      now rewrite orb_assoc, <- app_assoc.
    + rewrite (IH (pre ++ [l]) _ _ Htail).
      now rewrite orb_assoc, <- app_assoc.
Qed.



Lemma rewritten_app host f : forall a pre b,
  rewritten host f pre (a ++ b) = rewritten host f pre a ++ rewritten host f (pre ++ a) b.
Proof.
  induction a as [|l a IH]; intros pre b; simpl.
  - now rewrite app_nil_r.
  - rewrite IH. now rewrite <- app_assoc.
Qed.

Lemma rewritten_same host f : forall lines pre,
  (forall i l, nth_error lines i = Some l ->
     flag host (pre ++ firstn (S i) lines) = true -> is_hostname_line l = false) ->
  rewritten host f pre lines = lines.
Proof.
  induction lines as [|l ls IH]; intros pre H; [reflexivity|].
  simpl. rewrite IH.
  - destruct (flag host (pre ++ [l])) eqn:E; [|reflexivity].
    now rewrite (H 0 l eq_refl E).
  - intros i l' Hn Hf. apply (H (S i)); trivial. now rewrite firstn_S_cons.
Qed.

(** With a template free of escapes [re.sub] always returns. *)
Lemma sub_plain new_ip l :
  no_backslash new_ip = true ->
  sub false HOSTNAME_REST (lit "\g<1>" ++ new_ip) l = Some (sub_line new_ip l).
Proof.
  intros H. unfold sub, sub_line.
  rewrite parse_template_g1, parse_template_plain by exact H. simpl option_map.
  destruct (rmatch_at0 false HOSTNAME_REST l) as [m|]; [|reflexivity].
  f_equal. unfold expand. simpl map. simpl concat.
  change (concat (map (expand_item l m) (map TLit new_ip)))
    with (expand (map TLit new_ip) l m).
  now rewrite expand_lits, <- app_assoc.
Qed.

Lemma sub_line_hostname_line indent gap v new_ip :
  is_indent indent = true -> is_gap gap = true -> is_value v = true ->
  no_backslash new_ip = true ->
  sub_line new_ip (hostname_line indent gap v) = hostname_line indent gap new_ip.
Proof.
  intros Hi Hg Hv Hip.
  pose proof (sub_hostname_line indent gap v new_ip Hi Hg Hv Hip) as E.
  rewrite sub_plain in E by exact Hip. now injection E.
Qed.





(** ** update_hostname as a whole *)

Lemma update_hostname_found self host new_ip w content out :
  ssh_config w = Some content ->
  update_loop host new_ip (readlines content) false false [] = Returned (true, out) ->
  update_hostname self host new_ip w
  = (Returned true,
     said (set_file w (writelines out))
       (lit "Successfully updated HostName for '" ++ host ++ lit "' to '"
        ++ new_ip ++ lit "' in " ++ ssh_config_path self)).
Proof.
  intros Hc Hl. unfold update_hostname, bind, isfile, open_readlines, lift_outcome.
  rewrite Hc. change (negb true) with false. cbv beta iota.
  rewrite Hc. cbv beta iota. rewrite Hl. reflexivity.
Qed.

Lemma update_hostname_not_found self host new_ip w content out :
  ssh_config w = Some content ->
  update_loop host new_ip (readlines content) false false [] = Returned (false, out) ->
  update_hostname self host new_ip w
  = (Returned false,
     said w (lit "Error: Host '" ++ host ++ lit "' not found in config file!")).
Proof.
  intros Hc Hl. unfold update_hostname, bind, isfile, open_readlines, lift_outcome.
  rewrite Hc. change (negb true) with false. cbv beta iota.
  rewrite Hc. cbv beta iota. rewrite Hl. reflexivity.
Qed.

Lemma not_exists_target host lines :
  (forall l, In l lines -> is_target host l = false) ->
  existsb (is_target host) lines = false.
Proof.
  intros H. destruct (existsb (is_target host) lines) eqn:E; [|reflexivity].
  apply existsb_exists in E as (l & Hin & Hl). rewrite (H l Hin) in Hl. discriminate.
Qed.

Lemma In_firstn {A} (x : A) n l : In x (firstn n l) -> In x l.
Proof.
  revert l. induction n; intros [|a l]; simpl; try easy.
  intros [->|H]; [now left|right; auto].
Qed.

(** ** Claims about update_hostname *)

(** C3.  When no line of the file is a Host line naming [host] (the
    case-insensitive test of the scan, which allows nothing after the
    name), update_hostname prints that the host was not found, returns
    False and does not write: the file and the count of writes are what
    they were. *)
Theorem update_hostname_host_not_found self host new_ip w content :
  ssh_config w = Some content ->
  (forall l, In l (readlines content) -> is_target host l = false) ->
  let w' := said w (lit "Error: Host '" ++ host ++ lit "' not found in config file!") in
  update_hostname self host new_ip w = (Returned false, w')
  /\ ssh_config w' = Some content /\ writes w' = writes w.
Proof.
  intros Hc Hn w'. split; [|split; [exact Hc|reflexivity]].
  apply update_hostname_not_found with (content := content) (out := readlines content);
    [exact Hc|].
  change false with (flag host []) at 2.
  rewrite update_loop_spec with (f := fun l => l).
  - rewrite not_exists_target by exact Hn. simpl. f_equal. f_equal.
    apply rewritten_same. intros i l Hi Hf. exfalso.
    rewrite flag_false in Hf; [discriminate|].
    intros l' Hl'. apply Hn. exact (@In_firstn _ l' (S i) _ Hl').
  - intros i l Hi Hf. exfalso.
    rewrite flag_false in Hf; [discriminate|].
    intros l' Hl'. apply Hn. exact (@In_firstn _ l' (S i) _ Hl').
Qed.

Lemma update_hostname_host_not_found_witness :
  let w := sample_world (Some two_blocks) [] in
  let w' := said w (lit "Error: Host 'c' not found in config file!") in
  update_hostname sample_self (lit "c") (lit "9.9.9.9") w = (Returned false, w')
  /\ ssh_config w' = Some two_blocks /\ writes w' = writes w.
Proof.
  apply (@update_hostname_host_not_found sample_self (lit "c") (lit "9.9.9.9")
           (sample_world (Some two_blocks) []) two_blocks).
  - reflexivity.
  - intros l H. vm_compute in H.
    repeat (destruct H as [H|H]; [subst l; reflexivity|]). destruct H.
Defined.

(** C4, counterexamples.  A file can hold a block of [a] without HostName
    line and still be rewritten with another content: when a second block
    of the same name has a HostName line, that line is rewritten; and when
    the file has carriage returns at its line ends, the lines are written
    back with line feeds only. *)
Lemma update_hostname_without_hostname_line_changes_file :
  (let content := line "Host a" ++ line "    User alice"
                  ++ line "Host a" ++ line "    HostName 10.0.0.1" in
   let r := update_hostname sample_self (lit "a") (lit "2.2.2.2")
              (sample_world (Some content) []) in
   readlines content = [line "Host a"; line "    User alice";
                        line "Host a"; line "    HostName 10.0.0.1"]
   /\ fst r = Returned true
   /\ ssh_config (snd r)
      = Some (line "Host a" ++ line "    User alice"
              ++ line "Host a" ++ line "    HostName 2.2.2.2")
   /\ ssh_config (snd r) <> Some content)
  /\
  (let content := lit "Host a" ++ [CR; NL] ++ lit "    User alice" ++ [CR; NL] in
   let r := update_hostname sample_self (lit "a") (lit "2.2.2.2")
              (sample_world (Some content) []) in
   readlines content = [line "Host a"; line "    User alice"]
   /\ fst r = Returned true
   /\ ssh_config (snd r) = Some (line "Host a" ++ line "    User alice")
   /\ ssh_config (snd r) <> Some content).
Proof.
  split; cbv zeta; (split; [reflexivity|split; [reflexivity|split; [reflexivity|]]]);
    vm_compute; discriminate.
Qed.

(** C4, amended.  When some Host line names [host] and no line lying in a
    block of [host] is a HostName line (in none of the blocks of that
    name, should the file have several), update_hostname writes the file
    back once with the text it read, which is the content of the file with
    its line ends turned into line feeds, and returns True.  For a file
    without carriage return this is the content it had. *)
Theorem update_hostname_without_hostname_line self host new_ip w content :
  ssh_config w = Some content ->
  (exists l, In l (readlines content) /\ is_target host l = true) ->
  (forall i l, nth_error (readlines content) i = Some l ->
     in_block host (readlines content) i = true -> is_hostname_line l = false) ->
  let w' := said (set_file w (universal_newlines content))
              (lit "Successfully updated HostName for '" ++ host ++ lit "' to '"
               ++ new_ip ++ lit "' in " ++ ssh_config_path self) in
  update_hostname self host new_ip w = (Returned true, w')
  /\ ssh_config w' = Some (universal_newlines content)
  /\ writes w' = S (writes w)
  /\ (no_cr content = true -> ssh_config w' = Some content).
Proof.
  intros Hc (t & Hin & Ht) Hn w'.
  split; [|split; [reflexivity|split; [reflexivity|]]].
  - unfold w'. rewrite <- (concat_readlines content) at 1.
    apply update_hostname_found with (content := content); [exact Hc|].
    change false with (flag host []) at 2.
    rewrite update_loop_spec with (f := fun l => l).
    + assert (E : existsb (is_target host) (readlines content) = true).
      { apply existsb_exists. now exists t. }
      rewrite E. simpl. f_equal. f_equal.
      apply rewritten_same. intros i l Hi Hf. now apply (Hn i).
    + intros i l Hi Hf Hh. rewrite (Hn i l Hi Hf) in Hh. discriminate.
  - intros Hcr. unfold w'. cbn [ssh_config said set_stdout set_file].
    now rewrite universal_newlines_id.
Qed.

Lemma update_hostname_without_hostname_line_witness :
  let content := line "Host a" ++ line "    User alice" ++ line "Host b"
                 ++ line "    HostName 10.0.0.2" in
  let w := sample_world (Some content) [] in
  let w' := said (set_file w (universal_newlines content))
              (lit "Successfully updated HostName for 'a' to '2.2.2.2' in "
               ++ ssh_config_path sample_self) in
  update_hostname sample_self (lit "a") (lit "2.2.2.2") w = (Returned true, w')
  /\ ssh_config w' = Some (universal_newlines content)
  /\ writes w' = S (writes w)
  /\ (no_cr content = true -> ssh_config w' = Some content).
Proof.
  intros content w.
  apply (@update_hostname_without_hostname_line sample_self (lit "a") (lit "2.2.2.2")
           w content).
  - reflexivity.
  - exists (line "Host a"). split; [vm_compute; auto|reflexivity].
  - intros i l Hi Hb.
    destruct i as [|[|[|[|i]]]]; vm_compute in Hi; try discriminate;
      injection Hi as <-; try reflexivity; vm_compute in Hb; discriminate.
Defined.

(** The lines collected for a run of lines without a Host line, and for
    a whole block. *)
Lemma rewritten_no_host host f : forall body pre,
  (forall l, In l body -> is_host_line l = false) ->
  rewritten host f pre body
  = map (fun l => if flag host pre && is_hostname_line l then f l else l) body.
Proof.
  induction body as [|l body IH]; intros pre H; [reflexivity|].
  simpl. rewrite IH by (intros; apply H; now right).
  rewrite flag_snoc, (H l) by now left. reflexivity.
Qed.

Lemma rewritten_block host f pre hl body :
  is_host_line hl = true ->
  (forall l, In l body -> is_host_line l = false) ->
  rewritten host f pre (hl :: body)
  = (if is_target host hl && is_hostname_line hl then f hl else hl)
    :: map (fun l => if is_target host hl && is_hostname_line l then f l else l) body.
Proof.
  intros Hh Hb. simpl. rewrite rewritten_no_host by exact Hb.
  rewrite flag_snoc, Hh. reflexivity.
Qed.

Lemma map_fixed {A} (g : A -> A) (l : list A) :
  (forall x, In x l -> g x = x) -> map g l = l.
Proof.
  induction l as [|a l IH]; simpl; intros H; [reflexivity|].
  rewrite H by now left. rewrite IH; [reflexivity|]. intros; apply H; now right.
Qed.

Lemma other_line_inv l :
  other_line l = true ->
  is_line l = true /\ is_host_line l = false /\ is_hostname_line l = false
  /\ no_cr l = true.
Proof.
  unfold other_line. intros H.
  apply andb_true_iff in H as [H H3]. apply andb_true_iff in H as [H H2].
  apply andb_true_iff in H as [H1 H4].
  apply negb_true_iff in H2, H3. auto.
Qed.

Lemma others_lines os :
  Forall (fun l => other_line l = true) os -> Forall (fun l => is_line l = true) os.
Proof. apply Forall_impl. intros l H. now apply other_line_inv in H. Qed.

Lemma others_no_cr os :
  Forall (fun l => other_line l = true) os -> Forall (fun l => no_cr l = true) os.
Proof. apply Forall_impl. intros l H. now apply other_line_inv in H. Qed.

Lemma others_no_host os l :
  Forall (fun l => other_line l = true) os -> In l os -> is_host_line l = false.
Proof.
  intros H Hin. rewrite Forall_forall in H. now apply other_line_inv, H.
Qed.

Lemma others_no_hostname os l :
  Forall (fun l => other_line l = true) os -> In l os -> is_hostname_line l = false.
Proof.
  intros H Hin. rewrite Forall_forall in H. now apply other_line_inv, H.
Qed.

(** C1.  On a file made of the block [Host a] / [HostName 10.0.0.1] and
    the block [Host b] / [HostName 10.0.0.2], every line ended by a line
    feed, with any lines that are neither Host nor HostName lines (ended
    by a line feed too, and without carriage return) before, between and
    after them, update_hostname("a", "2.2.2.2") returns True and writes
    the file once, with 2.2.2.2 in the HostName line of block a: the text
    before that line and the text after it, block b included, are what
    they were, byte for byte. *)
Theorem update_hostname_two_blocks self w o0 o1 o2 o3 o4 :
  Forall (fun l => other_line l = true) (o0 ++ o1 ++ o2 ++ o3 ++ o4) ->
  ssh_config w =
    Some (concat (o0 ++ [line "Host a"] ++ o1 ++ [line "HostName 10.0.0.1"] ++ o2
                  ++ [line "Host b"] ++ o3 ++ [line "HostName 10.0.0.2"] ++ o4)) ->
  exists w',
    update_hostname self (lit "a") (lit "2.2.2.2") w = (Returned true, w')
    /\ ssh_config w' =
         Some (concat (o0 ++ [line "Host a"] ++ o1 ++ [line "HostName 2.2.2.2"] ++ o2
                       ++ [line "Host b"] ++ o3 ++ [line "HostName 10.0.0.2"] ++ o4))
    /\ writes w' = S (writes w).
Proof.
  intros Ho Hc.
  apply Forall_app in Ho as [H0 Ho]. apply Forall_app in Ho as [H1 Ho].
  apply Forall_app in Ho as [H2 Ho]. apply Forall_app in Ho as [H3 H4].
  set (f := sub_line (lit "2.2.2.2")).
  set (lines := o0 ++ [line "Host a"] ++ o1 ++ [line "HostName 10.0.0.1"] ++ o2
                ++ [line "Host b"] ++ o3 ++ [line "HostName 10.0.0.2"] ++ o4) in *.
  assert (Hr : readlines (concat lines) = lines).
  { apply readlines_concat; [|apply no_cr_concat]; unfold lines;
      repeat (apply Forall_app; split);
      try (now apply others_lines); try (now apply others_no_cr);
      now repeat constructor. }
  assert (Hloop : update_loop (lit "a") (lit "2.2.2.2") lines false false []
                  = Returned (true, rewritten (lit "a") f [] lines)).
  { change (update_loop ?h ?ip ?l false false [])
      with (update_loop h ip l false (flag h []) []).
    rewrite update_loop_spec with (f := f).
    - assert (E : existsb (is_target (lit "a")) lines = true).
      { apply existsb_exists. exists (line "Host a"). split; [|reflexivity].
        unfold lines. apply in_or_app. right. now left. }
      now rewrite E.
    - intros i l _ _ _. now apply sub_plain. }
  eexists. split; [|split].
  - apply update_hostname_found with (content := concat lines); [exact Hc|].
    rewrite Hr. exact Hloop.
  - simpl ssh_config. do 2 f_equal. unfold lines.
    replace (o0 ++ [line "Host a"] ++ o1 ++ [line "HostName 10.0.0.1"] ++ o2
             ++ [line "Host b"] ++ o3 ++ [line "HostName 10.0.0.2"] ++ o4)
      with (o0 ++ (line "Host a" :: o1 ++ [line "HostName 10.0.0.1"] ++ o2)
            ++ (line "Host b" :: o3 ++ [line "HostName 10.0.0.2"] ++ o4))
      by (cbn [app]; rewrite <- !app_assoc; reflexivity).
    rewrite !rewritten_app.
    rewrite rewritten_no_host by (intros; now apply others_no_host with (os := o0)).
    rewrite flag_nil. simpl andb. rewrite map_fixed by reflexivity.
    rewrite !rewritten_block; try reflexivity.
    + change (is_target (lit "a") (line "Host a")) with true.
      change (is_target (lit "a") (line "Host b")) with false.
      change (is_hostname_line (line "Host a")) with false.
      simpl andb. cbv iota.
      rewrite (map_fixed (fun l => l)) by reflexivity.
      rewrite !map_app.
      rewrite (map_fixed _ o1), (map_fixed _ o2).
      * unfold writelines. cbn [map].
        change (is_hostname_line (line "HostName 10.0.0.1")) with true. cbv iota.
        change (f (line "HostName 10.0.0.1")) with (line "HostName 2.2.2.2").
        cbn [app]. rewrite <- !app_assoc. reflexivity.
      * intros l Hl. now rewrite (@others_no_hostname o2 l H2 Hl).
      * intros l Hl. now rewrite (@others_no_hostname o1 l H1 Hl).
    + intros l Hl. apply in_app_or in Hl as [Hl|[<-|Hl]];
        [now apply others_no_host with (os := o3)|reflexivity|now apply others_no_host with (os := o4)].
    + intros l Hl. apply in_app_or in Hl as [Hl|[<-|Hl]];
        [now apply others_no_host with (os := o1)|reflexivity|now apply others_no_host with (os := o2)].
  - reflexivity.
Qed.

Lemma update_hostname_two_blocks_witness :
  exists w',
    update_hostname sample_self (lit "a") (lit "2.2.2.2")
      (sample_world (Some (line "# hosts" ++ line "Host a" ++ line "    User alice"
                           ++ line "HostName 10.0.0.1" ++ line "Host b"
                           ++ line "HostName 10.0.0.2")) [])
    = (Returned true, w')
    /\ ssh_config w' = Some (line "# hosts" ++ line "Host a" ++ line "    User alice"
                              ++ line "HostName 2.2.2.2" ++ line "Host b"
                              ++ line "HostName 10.0.0.2")
    /\ writes w' = 1.
Proof.
  destruct (@update_hostname_two_blocks sample_self
              (sample_world (Some (line "# hosts" ++ line "Host a" ++ line "    User alice"
                                   ++ line "HostName 10.0.0.1" ++ line "Host b"
                                   ++ line "HostName 10.0.0.2")) [])
              [line "# hosts"] [line "    User alice"] [] [] [])
    as (w' & H1 & H2 & H3).
  - repeat constructor.
  - reflexivity.
  - exists w'. split; [exact H1|split; [|exact H3]].
    rewrite H2. reflexivity.
Defined.

(** ** Lines that keep their end *)












(** ** The scan of list_hostnames *)

Lemma list_loop_cons l ls cur acc :
  list_loop (l :: ls) cur acc =
  let cur' := match host_capture l with Some h => Some h | None => cur end in
  list_loop ls cur'
    match hostname_capture l with
    | Some ip =>
        if truthy cur' then acc ++ [get_fallback cur' [] ++ lit " -> " ++ ip] else acc
    | None => acc
    end.
Proof.
  unfold host_capture, hostname_capture. simpl list_loop.
  destruct (rmatch_at0 true HOST_VALUE l), (rmatch_at0 true HOSTNAME_VALUE l);
    reflexivity.
Qed.

Lemma current_host_snoc pre l :
  current_host (pre ++ [l])
  = match host_capture l with Some h => Some h | None => current_host pre end.
Proof.
  unfold current_host. rewrite rev_app_distr. simpl.
  destruct (host_capture l) eqn:E; simpl; [exact E|reflexivity].
Qed.

Lemma list_loop_spec : forall lines pre acc,
  list_loop lines (current_host pre) acc = acc ++ emitted pre lines.
Proof.
  induction lines as [|l ls IH]; intros pre acc.
  - simpl. now rewrite app_nil_r.
  - rewrite list_loop_cons. cbv zeta. rewrite <- current_host_snoc.
    rewrite IH. simpl emitted. unfold emits.
    destruct (hostname_capture l); [|reflexivity].
    destruct (truthy (current_host (pre ++ [l]))); [|reflexivity].
    now rewrite <- app_assoc.
Qed.

Lemma emitted_app : forall a pre b,
  emitted pre (a ++ b) = emitted pre a ++ emitted (pre ++ a) b.
Proof.
  induction a as [|l a IH]; intros pre b; simpl.
  - now rewrite app_nil_r.
  - rewrite IH. now rewrite <- !app_assoc.
Qed.

Lemma list_hostnames_lines self w content :
  ssh_config w = Some content ->
  list_hostnames self w = (Returned (list_loop (readlines content) None []), w).
Proof.
  intros Hc. unfold list_hostnames, bind, isfile, open_readlines.
  rewrite Hc. change (negb true) with false. cbv beta iota. rewrite Hc. reflexivity.
Qed.

Lemma is_value_nonempty v : is_value v = true -> truthy (Some v) = true.
Proof. now destruct v. Qed.

Lemma emitted_hostname_lines indent gap h : forall values pre,
  is_indent indent = true -> is_gap gap = true ->
  current_host pre = Some h -> truthy (Some h) = true ->
  Forall (fun v => is_value v = true) values ->
  emitted pre (map (hostname_line indent gap) values)
  = map (fun v => h ++ lit " -> " ++ v) values.
Proof.
  induction values as [|v values IH]; intros pre Hi Hg Hcur Ht Hv; [reflexivity|].
  inversion Hv as [|? ? Hv1 Hv2]; subst.
  assert (E : current_host (pre ++ [hostname_line indent gap v]) = Some h).
  { rewrite current_host_snoc. unfold host_capture.
    now rewrite host_value_hostname_line. }
  simpl. unfold emits at 1. unfold hostname_capture at 1.
  rewrite hostname_value_hostname_line, E, Ht by assumption.
  simpl. f_equal. now apply IH.
Qed.

(** C7.  list_hostnames returns the pairs of the Host lines and their
    HostName lines in file order: for the two blocks of the example,
    exactly [a -> 10.0.0.1] and [b -> 10.0.0.2]; in any file, a HostName
    line read while a current host is set adds one pair, made of that
    host and of the line's value, between what the lines before it and
    the lines after it list; and the HostName lines that follow one Host
    line give one pair each. *)
Theorem list_hostnames_pairs self w content :
  ssh_config w = Some content ->
  (content = two_blocks ->
   list_hostnames self w = (Returned [lit "a -> 10.0.0.1"; lit "b -> 10.0.0.2"], w))
  /\ (forall pre l post h ip,
        readlines content = pre ++ l :: post ->
        hostname_capture l = Some ip ->
        current_host (pre ++ [l]) = Some h -> truthy (Some h) = true ->
        list_hostnames self w
        = (Returned (list_loop pre None [] ++ [h ++ lit " -> " ++ ip]
                     ++ list_loop post (Some h) []), w))
  /\ (forall pre indent gap h indent' gap' values,
        readlines content
          = pre ++ host_line indent gap h :: map (hostname_line indent' gap') values ->
        is_indent indent = true -> is_gap gap = true -> is_value h = true ->
        is_indent indent' = true -> is_gap gap' = true ->
        Forall (fun v => is_value v = true) values ->
        list_hostnames self w
        = (Returned (list_loop pre None [] ++ map (fun v => h ++ lit " -> " ++ v) values),
           w)).
Proof.
  intros Hc. rewrite (list_hostnames_lines self w Hc).
  change (list_loop ?l None []) with (list_loop l (current_host []) []).
  split; [|split].
  - intros ->. reflexivity.
  - intros pre l post h ip Hr Hip Hcur Ht. rewrite Hr. f_equal. f_equal.
    rewrite !list_loop_spec. cbn [app].
    rewrite emitted_app. f_equal. cbn [emitted app].
    unfold emits. rewrite Hip, Hcur, Ht. cbn [get_fallback app]. f_equal.
    rewrite <- Hcur. now rewrite list_loop_spec.
  - intros pre indent gap h indent' gap' values Hr Hi Hg Hh Hi' Hg' Hv.
    rewrite Hr. f_equal. f_equal.
    rewrite !list_loop_spec. cbn [app].
    rewrite emitted_app. f_equal. cbn [emitted app].
    assert (E : current_host (pre ++ [host_line indent gap h]) = Some h).
    { rewrite current_host_snoc. unfold host_capture.
      now rewrite host_value_host_line. }
    unfold emits, hostname_capture.
    rewrite hostname_value_host_line by assumption. cbn [option_map app].
    apply emitted_hostname_lines; trivial. now apply is_value_nonempty.
Qed.

Lemma list_hostnames_pairs_witness :
  list_hostnames sample_self (sample_world (Some two_blocks) [])
  = (Returned [lit "a -> 10.0.0.1"; lit "b -> 10.0.0.2"], sample_world (Some two_blocks) [])
  /\ list_hostnames sample_self
       (sample_world (Some (line "Host a" ++ line "  HostName 10.0.0.1"
                            ++ line "  HostName 10.0.0.3")) [])
     = (Returned [lit "a -> 10.0.0.1"; lit "a -> 10.0.0.3"],
        sample_world (Some (line "Host a" ++ line "  HostName 10.0.0.1"
                            ++ line "  HostName 10.0.0.3")) []).
Proof.
  split.
  - destruct (@list_hostnames_pairs sample_self (sample_world (Some two_blocks) [])
                two_blocks eq_refl) as (Ha & _ & _).
    apply Ha. reflexivity.
  - destruct (@list_hostnames_pairs sample_self
                (sample_world (Some (line "Host a" ++ line "  HostName 10.0.0.1"
                                     ++ line "  HostName 10.0.0.3")) [])
                (line "Host a" ++ line "  HostName 10.0.0.1" ++ line "  HostName 10.0.0.3")
                eq_refl) as (_ & _ & Hc).
    apply (Hc [] [] (lit " ") (lit "a") (lit "  ") (lit " ")
              [lit "10.0.0.1"; lit "10.0.0.3"]); try reflexivity.
    repeat constructor.
Defined.

(** ** The case of letters, and a missing file *)

(** C5, at the input where the code departs from it.  In a file with the
    block [Host a], update_hostname("A", ...) takes that block for the
    block of A and rewrites its HostName line, while add_host("A") does
    not find it: it returns True and appends a second block. *)
Theorem add_host_compares_case_sensitively :
  let content := line "Host a" ++ line "HostName 10.0.0.1" in
  let w := sample_world (Some content) [] in
  (exists w',
     update_hostname sample_self (lit "A") (lit "2.2.2.2") w = (Returned true, w')
     /\ ssh_config w' = Some (line "Host a" ++ line "HostName 2.2.2.2"))
  /\ (exists w',
        add_host sample_self (lit "A") w = (Returned true, w')
        /\ ssh_config w' = Some (content ++ new_entry sample_self (lit "A"))
        /\ writes w' = 1)
  /\ is_target (lit "A") (line "Host a") = true
  /\ matches false (HOST_NAMED (lit "A")) (line "Host a") = false.
Proof.
  split; [|split; [|split]].
  - eexists. split; [vm_compute; reflexivity|reflexivity].
  - eexists. split; [vm_compute; reflexivity|split; reflexivity].
  - reflexivity.
  - reflexivity.
Qed.

(** C9, at the input where the code departs from it.  Without the file,
    list_hostnames and update_hostname print the error and return the
    empty list and False; add_host has no such test and raises
    FileNotFoundError when it opens the file for reading.  None of them
    writes. *)
Theorem missing_config_file self host new_ip out n run :
  let w := {| ssh_config := None; stdout := out; writes := n; subprocess_run := run |} in
  let w' := said w (lit "Error: Config file " ++ ssh_config_path self ++ lit " not found!") in
  list_hostnames self w = (Returned [], w')
  /\ update_hostname self host new_ip w = (Returned false, w')
  /\ add_host self host w = (Raised FileNotFoundError, w)
  /\ ssh_config w' = None /\ writes w' = n.
Proof. repeat split. Qed.

(** ** add_host *)

Lemma chr_eq_ignorecase c a : chr_eq false c a = true -> chr_eq true c a = true.
Proof.
  unfold chr_eq. intros H. apply Ascii.eqb_eq in H. subst. apply Ascii.eqb_refl.
Qed.

(** What matches without re.IGNORECASE matches with it. *)
Lemma exec_ignorecase p : forall g pos s,
  exec false p g pos s <> None -> exec true p g pos s <> None.
Proof.
  induction p as [|i p IH]; intros g pos s; [simpl; easy|].
  destruct i; cbn [exec].
  - destruct (pos =? 0); [apply IH|easy].
  - destruct s as [|c [|d s]]; try apply IH; [|easy].
    destruct (is_nl c); [apply IH|easy].
  - destruct s as [|a s]; [easy|].
    destruct (chr_eq false c a) eqn:E; [|easy].
    rewrite (chr_eq_ignorecase _ _ E). apply IH.
  - apply star_mono. intros pos' s'. apply IH.
  - destruct s as [|a s]; [easy|]. destruct (in_cls k a); [|easy].
    apply star_mono. intros pos' s'. apply IH.
  - apply IH.
  - apply IH.
Qed.

Lemma matches_ignorecase p s : matches true p s = false -> matches false p s = false.
Proof.
  unfold matches, rmatch_at0. intros H.
  pose proof (@exec_ignorecase p (0, 0) 0 s) as E.
  destruct (exec false p (0, 0) 0 s); [|reflexivity].
  destruct (exec true p (0, 0) 0 s); [discriminate|]. now exfalso; apply E.
Qed.

Lemma add_host_new self name w content :
  ssh_config w = Some content ->
  existsb (fun l => matches false (HOST_NAMED name) l) (readlines content) = false ->
  add_host self name w
  = (Returned true,
     said (set_file w (content ++ new_entry self name))
       (lit "Successfully added new host '" ++ name ++ lit "' to " ++ ssh_config_path self)).
Proof.
  intros Hc He. unfold add_host, bind, open_readlines, open_append.
  rewrite Hc. cbv beta iota. rewrite He. cbv beta iota. rewrite Hc. reflexivity.
Qed.

Lemma add_host_exists self name w content :
  ssh_config w = Some content ->
  existsb (fun l => matches false (HOST_NAMED name) l) (readlines content) = true ->
  add_host self name w
  = (Returned false,
     said w (lit "Error: Host '" ++ name ++ lit "' already exists in "
             ++ ssh_config_path self ++ lit "!")).
Proof.
  intros Hc He. unfold add_host, bind, open_readlines.
  rewrite Hc. cbv beta iota. rewrite He. reflexivity.
Qed.

Lemma new_entry_eq self name :
  new_entry self name
  = NL :: entry_host_line name ++ entry_hostname_line (lit "1.1.1.1") ++ entry_tail self.
Proof.
  unfold new_entry, entry_host_line, entry_hostname_line, host_line, hostname_line,
    entry_tail.
  cbn [app]. rewrite <- !app_assoc. reflexivity.
Qed.

Lemma no_nl_app a b : no_nl a = true -> no_nl b = true -> no_nl (a ++ b) = true.
Proof. unfold no_nl. intros. rewrite forallb_app. now apply andb_true_iff. Qed.

(** The lines of the file once the entry is appended, for a name on one
    line. *)
Lemma readlines_entry self name content :
  no_break name = true ->
  readlines (content ++ new_entry self name)
  = readlines (content ++ [NL])
    ++ entry_host_line name :: entry_hostname_line (lit "1.1.1.1")
       :: readlines (entry_tail self).
Proof.
  intros Hn. apply andb_true_iff in Hn as [Hn Hc].
  rewrite new_entry_eq, readlines_app_nl. f_equal.
  rewrite readlines_line.
  - rewrite readlines_line; reflexivity.
  - unfold entry_host_line, host_line. cbn [app].
    change (lit "Host" ++ lit " " ++ name ++ [NL]) with ((lit "Host " ++ name) ++ [NL]).
    apply is_line_intro. now apply no_nl_app.
  - unfold entry_host_line, host_line. rewrite !no_cr_app, Hc. reflexivity.
Qed.

Lemma is_hostname_line_host_line indent gap name :
  is_indent indent = true -> is_gap gap = true ->
  is_hostname_line (host_line indent gap name) = false.
Proof.
  intros Hi Hg. unfold is_hostname_line, matches.
  assert (E : rmatch_at0 true HOSTNAME (host_line indent gap name) = None).
  { now apply (@keyword_shorter true (lit "Host") "N"%char (lit "ame") indent gap
                 [Plus Space] (name ++ [NL])). }
  now rewrite E.
Qed.

(** The lines collected from where the entry starts. *)
Lemma rewritten_entry name f pre ip0 rest :
  is_value ip0 = true ->
  rewritten name f pre (entry_host_line name :: entry_hostname_line ip0 :: rest)
  = entry_host_line name :: f (entry_hostname_line ip0)
    :: rewritten name f (pre ++ [entry_host_line name; entry_hostname_line ip0]) rest.
Proof.
  intros Hv. cbn [rewritten].
  assert (F1 : flag name (pre ++ [entry_host_line name]) = true).
  { rewrite flag_snoc. unfold entry_host_line.
    rewrite (is_target_host_line name _ (is_target_host_line_self [] (lit " ") name eq_refl eq_refl)).
    now apply is_target_host_line_self. }
  assert (F2 : flag name ((pre ++ [entry_host_line name]) ++ [entry_hostname_line ip0]) = true).
  { rewrite flag_snoc. unfold entry_hostname_line.
    now rewrite is_host_line_hostname_line. }
  assert (H1 : is_hostname_line (entry_host_line name) = false).
  { now apply is_hostname_line_host_line. }
  assert (H2 : is_hostname_line (entry_hostname_line ip0) = true).
  { now apply is_hostname_line_hostname_line. }
  rewrite F1, F2, H1, H2. cbn [andb]. now rewrite <- app_assoc.
Qed.

Lemma existsb_app_r {A} (p : A -> bool) a b :
  existsb p b = true -> existsb p (a ++ b) = true.
Proof. intros H. rewrite existsb_app, H. apply orb_true_r. Qed.

(** update_hostname on a file that ends with the entry of [name]. *)
Lemma update_hostname_entry self name ip w content :
  ssh_config w = Some (content ++ new_entry self name) ->
  no_break name = true -> no_backslash ip = true ->
  update_hostname self name ip w
  = (Returned true,
     said (set_file w
             (writelines
                (rewritten name (sub_line ip) [] (readlines (content ++ [NL]))
                 ++ entry_host_line name :: entry_hostname_line ip
                    :: rewritten name (sub_line ip)
                         (readlines (content ++ [NL])
                          ++ [entry_host_line name; entry_hostname_line (lit "1.1.1.1")])
                         (readlines (entry_tail self)))))
       (lit "Successfully updated HostName for '" ++ name ++ lit "' to '"
        ++ ip ++ lit "' in " ++ ssh_config_path self)).
Proof.
  intros Hc Hn Hip.
  apply update_hostname_found with (content := content ++ new_entry self name);
    [exact Hc|].
  change (update_loop ?h ?i ?l false false [])
    with (update_loop h i l false (flag h []) []).
  rewrite update_loop_spec with (f := sub_line ip)
    by (intros; now apply sub_plain).
  rewrite readlines_entry by exact Hn.
  rewrite existsb_app_r.
  2:{ cbn [existsb]. unfold entry_host_line.
      now rewrite is_target_host_line_self. }
  cbn [orb app]. rewrite rewritten_app. cbn [app].
  rewrite rewritten_entry by reflexivity.
  unfold entry_hostname_line at 1.
  rewrite sub_line_hostname_line by trivial.
  reflexivity.
Qed.

Lemma not_exists_matches name lines :
  (forall l, In l lines -> matches false (HOST_NAMED name) l = false) ->
  existsb (fun l => matches false (HOST_NAMED name) l) lines = false.
Proof.
  intros H. destruct (existsb _ lines) eqn:E; [|reflexivity].
  apply existsb_exists in E as (l & Hin & Hl). rewrite (H l Hin) in Hl. discriminate.
Qed.

Lemma entry_in_block name pre ip0 rest :
  in_block name (pre ++ entry_host_line name :: entry_hostname_line ip0 :: rest)
    (S (length pre)) = true.
Proof.
  unfold in_block.
  replace (S (S (length pre))) with (length pre + 2) by lia.
  rewrite firstn_app_2. cbn [firstn].
  change (pre ++ [entry_host_line name; entry_hostname_line ip0])
    with (pre ++ [entry_host_line name] ++ [entry_hostname_line ip0]).
  rewrite app_assoc, flag_snoc. unfold entry_hostname_line.
  rewrite is_host_line_hostname_line by reflexivity.
  rewrite flag_snoc. unfold entry_host_line.
  rewrite (is_target_host_line name _
             (is_target_host_line_self [] (lit " ") name eq_refl eq_refl)).
  now apply is_target_host_line_self.
Qed.

Lemma entry_nth {A} (pre : list A) x y rest :
  nth_error (pre ++ x :: y :: rest) (S (length pre)) = Some y.
Proof.
  rewrite nth_error_app2 by lia.
  replace (S (length pre) - length pre) with 1 by lia. reflexivity.
Qed.

(** C6, counterexamples.  With a line break in the name the second
    add_host does not fail: the Host line it looks for spans two lines of
    the file, which no line matches, so the block is appended again; and
    update_hostname finds no block to rewrite.  This holds for a line
    feed, and for a carriage return, which is read back as a line
    feed. *)
Lemma add_host_twice_with_a_line_break :
  (exists w1 w2 w3,
     add_host sample_self (lit "c" ++ [NL] ++ lit "d") (sample_world (Some two_blocks) [])
     = (Returned true, w1)
     /\ add_host sample_self (lit "c" ++ [NL] ++ lit "d") w1 = (Returned true, w2)
     /\ ssh_config w2 <> ssh_config w1
     /\ update_hostname sample_self (lit "c" ++ [NL] ++ lit "d") (lit "3.3.3.3") w1
        = (Returned false, w3))
  /\ (exists w1 w2 w3,
        add_host sample_self (lit "c" ++ [CR] ++ lit "d") (sample_world (Some two_blocks) [])
        = (Returned true, w1)
        /\ add_host sample_self (lit "c" ++ [CR] ++ lit "d") w1 = (Returned true, w2)
        /\ ssh_config w2 <> ssh_config w1
        /\ update_hostname sample_self (lit "c" ++ [CR] ++ lit "d") (lit "3.3.3.3") w1
           = (Returned false, w3)).
Proof.
  split; do 3 eexists;
    (split; [vm_compute; reflexivity|split; [vm_compute; reflexivity|split]]);
    [vm_compute; discriminate|vm_compute; reflexivity
    |vm_compute; discriminate|vm_compute; reflexivity].
Qed.

(** C6, amended.  When no line of the file matches [Host name] (the
    anchored, case-sensitive test of add_host) and [name] holds no line
    break, add_host(name) returns True and appends its block: a Host
    line, the placeholder line [HostName 1.1.1.1], and last a User line
    with the user of the settings, or [default_user] when the settings
    have none.  In the file so made the placeholder line is a HostName
    line inside the block of [name], so update_hostname has a line to
    rewrite: update_hostname(name, ip) returns True and the text it
    writes holds the Host line of the block directly followed by its
    HostName line carrying [ip] (for an [ip] without backslash).  And
    add_host(name) returns False there and leaves the file as it is,
    without a write. *)
Theorem add_host_then_update_then_add self name w content :
  ssh_config w = Some content ->
  (forall l, In l (readlines content) -> matches false (HOST_NAMED name) l = false) ->
  no_break name = true ->
  exists w1,
    add_host self name w = (Returned true, w1)
    /\ ssh_config w1 = Some (content ++ new_entry self name)
    /\ (exists mid,
          new_entry self name
          = [NL] ++ (lit "Host " ++ name ++ [NL]) ++ line "    HostName 1.1.1.1" ++ mid
            ++ (lit "    User "
                ++ match cfg_user (config self) with
                   | Some user => user
                   | None => lit "default_user"
                   end
                ++ [NL]))
    /\ (exists k,
          nth_error (readlines (content ++ new_entry self name)) k
          = Some (line "    HostName 1.1.1.1")
          /\ in_block name (readlines (content ++ new_entry self name)) k = true
          /\ is_hostname_line (line "    HostName 1.1.1.1") = true)
    /\ (forall ip, no_backslash ip = true ->
        exists before after w2,
          update_hostname self name ip w1 = (Returned true, w2)
          /\ ssh_config w2
             = Some (before ++ (lit "Host " ++ name ++ [NL])
                     ++ (lit "    HostName " ++ ip ++ [NL]) ++ after))
    /\ (exists w3,
          add_host self name w1 = (Returned false, w3)
          /\ ssh_config w3 = ssh_config w1 /\ writes w3 = writes w1).
Proof.
  intros Hc Hno Hn. eexists. split.
  { apply add_host_new with (content := content); [exact Hc|].
    now apply not_exists_matches. }
  split; [reflexivity|]. split; [|split; [|split]].
  - exists (lit "    IdentityFile "
            ++ path_join (ssh_dir self) (lit "google_compute_engine") ++ [NL]
            ++ lit "    UserKnownHostsFile="
            ++ path_join (ssh_dir self) (lit "google_compute_known_hosts") ++ [NL]
            ++ lit "    IdentitiesOnly=yes" ++ [NL]
            ++ lit "    CheckHostIP=no" ++ [NL]).
    unfold new_entry, line, get_ssh_user, get_fallback.
    rewrite <- !app_assoc. reflexivity.
  - exists (S (length (readlines (content ++ [NL])))).
    rewrite readlines_entry by exact Hn. split; [|split].
    + apply entry_nth.
    + apply entry_in_block.
    + reflexivity.
  - intros ip Hip.
    exists (concat (rewritten name (sub_line ip) [] (readlines (content ++ [NL])))),
      (concat (rewritten name (sub_line ip)
                 (readlines (content ++ [NL])
                  ++ [entry_host_line name; entry_hostname_line (lit "1.1.1.1")])
                 (readlines (entry_tail self)))).
    eexists. split.
    + apply update_hostname_entry with (content := content); trivial.
    + cbn [ssh_config said set_stdout set_file]. f_equal.
      unfold writelines. rewrite concat_app. cbn [concat].
      unfold entry_host_line, entry_hostname_line, host_line, hostname_line.
      rewrite <- !app_assoc. reflexivity.
  - eexists. split.
    { apply add_host_exists with (content := content ++ new_entry self name);
        [reflexivity|].
      rewrite readlines_entry by exact Hn. apply existsb_app_r.
      cbn [existsb]. unfold entry_host_line.
      now rewrite host_named_host_line. }
    split; reflexivity.
Qed.

Lemma add_host_then_update_then_add_witness :
  exists w1,
    add_host sample_self (lit "c") (sample_world (Some two_blocks) []) = (Returned true, w1)
    /\ (exists mid,
          new_entry sample_self (lit "c")
          = [NL] ++ line "Host c" ++ line "    HostName 1.1.1.1" ++ mid
            ++ line "    User alice")
    /\ (exists before after w2,
          update_hostname sample_self (lit "c") (lit "3.3.3.3") w1 = (Returned true, w2)
          /\ ssh_config w2
             = Some (before ++ line "Host c" ++ line "    HostName 3.3.3.3" ++ after))
    /\ (exists w3,
          add_host sample_self (lit "c") w1 = (Returned false, w3)
          /\ ssh_config w3 = ssh_config w1).
Proof.
  destruct (@add_host_then_update_then_add sample_self (lit "c")
              (sample_world (Some two_blocks) []) two_blocks)
    as (w1 & H1 & _ & (mid & Hm) & _ & Hu & (w3 & H6 & H7 & _)).
  - reflexivity.
  - intros l H. vm_compute in H.
    repeat (destruct H as [H|H]; [subst l; reflexivity|]). destruct H.
  - reflexivity.
  - destruct (Hu (lit "3.3.3.3") eq_refl) as (before & after & w2 & H4 & H5).
    exists w1. split; [exact H1|]. split; [|split].
    + exists mid. exact Hm.
    + exists before, after, w2. split; [exact H4|exact H5].
    + exists w3. split; [exact H6|exact H7].
Defined.

(** ** Host lines and HostName lines exclude each other *)

Lemma span_space l :
  exists ws r, l = ws ++ r /\ forallb is_space ws = true /\ stops Space r = true.
Proof.
  induction l as [|a l (ws & r & E & Hw & Hr)].
  - now exists [], [].
  - destruct (is_space a) eqn:Ha.
    + exists (a :: ws), r. subst l. simpl. now rewrite Ha.
    + exists [], (a :: l). simpl. now rewrite Ha.
Qed.

Lemma host_line_not_hostname_line l :
  is_host_line l = true -> is_hostname_line l = false.
Proof.
  destruct (span_space l) as (ws & r & -> & Hw & Hr).
  unfold is_host_line, is_hostname_line, matches, rmatch_at0, HOST, HOSTNAME.
  change (exec true ([Bol; Star Space] ++ ?p) ?g 0 ?s)
    with (star Space (exec true p g) 0 s).
  rewrite !star_skip; trivial;
    try (intros pos a s Ha; now apply exec_lit_space).
  change (lits "Host" ++ [Plus Space])
    with [Lit "H"%char; Lit "o"%char; Lit "s"%char; Lit "t"%char; Plus Space].
  change (lits "HostName" ++ [Plus Space])
    with [Lit "H"%char; Lit "o"%char; Lit "s"%char; Lit "t"%char;
          Lit "N"%char; Lit "a"%char; Lit "m"%char; Lit "e"%char; Plus Space].
  destruct r as [|a1 [|a2 [|a3 [|a4 [|a5 r]]]]]; cbn [exec];
    repeat match goal with
           | |- context [chr_eq true ?c ?a] =>
               lazymatch c with
               | "N"%char => fail
               | _ => destruct (chr_eq true c a); try discriminate
               end
           end; try discriminate.
  cbn [in_cls]. destruct (is_space a5) eqn:E5; [|discriminate].
  intros _. now rewrite chr_eq_space.
Qed.

(** ** The file with a line feed added *)

Lemma readlines_nl content :
  exists init z rest,
    readlines (content ++ [NL]) = init ++ [z] /\ readlines content = init ++ rest.
Proof.
  unfold readlines, universal_newlines.
  rewrite translate_app, translate_nl. cbn [translate_from]. rewrite app_nil_r.
  destruct (ends_cr false content) eqn:E.
  - rewrite app_nil_r.
    destruct (ends_cr_translate _ _ E) as [[_ ?]|[x Ex]]; [discriminate|].
    destruct (splitlines (translate_from false content)) as [|l ls] eqn:El.
    + exfalso. apply (f_equal (@concat ascii)) in El.
      rewrite concat_splitlines, Ex in El. now destruct x.
    + destruct (@exists_last _ (l :: ls)) as (init & z & Ez); [discriminate|].
      exists init, z, [z]. now rewrite Ez.
  - apply splitlines_nl.
Qed.

(** Lines before the entry are written as they were when none of them
    names the host. *)
Lemma rewritten_untargeted host f content :
  (forall l, In l (readlines content) -> is_target host l = false) ->
  rewritten host f [] (readlines (content ++ [NL])) = readlines (content ++ [NL]).
Proof.
  intros H. destruct (readlines_nl content) as (init & z & rest & E1 & E2).
  rewrite E1, E2 in *.
  assert (Hinit : forall l, In l init -> is_target host l = false).
  { intros l Hl. apply H. apply in_or_app. now left. }
  rewrite rewritten_app. f_equal.
  - apply rewritten_same. intros i l _ Hf. exfalso.
    rewrite flag_false in Hf; [discriminate|].
    intros l' Hl'. apply Hinit. exact (@In_firstn _ l' (S i) _ Hl').
  - cbn [rewritten app]. f_equal. rewrite flag_snoc.
    destruct (is_host_line z) eqn:Ez.
    + rewrite (host_line_not_hostname_line _ Ez). now rewrite andb_false_r.
    + now rewrite (flag_false _ _ Hinit).
Qed.

(** ** gcp_utils and start_vm *)

Lemma run_command_eq cmd w :
  gcp_utils.run_command cmd w = (Returned (command_text (subprocess_run w cmd)), w).
Proof.
  unfold gcp_utils.run_command, try_except, command_text.
  destruct (returncode (subprocess_run w cmd) =? 0)%Z; reflexivity.
Qed.

Lemma try_except_bind {A B} (m : M A) (k : A -> M B) catches handler w a w1 :
  m w = (Returned a, w1) ->
  try_except (bind m k) catches handler w = try_except (k a) catches handler w1.
Proof. unfold try_except, bind. now intros ->. Qed.

Lemma truthy_nonempty s : s <> [] -> truthy (Some s) = true.
Proof. now destruct s. Qed.

(** The start sequence up to the point where the SSH config is edited. *)
Lemma start_vm_steps self instance project zone w :
  cfg_project (config self) = Some project -> project <> [] ->
  cfg_zone (config self) = Some zone -> zone <> [] ->
  let start_result := command_text (subprocess_run w (start_command instance project zone)) in
  let public_ip := command_text (subprocess_run w (describe_command instance project zone)) in
  let w1 := said (said w (lit "Starting VM: " ++ instance ++ lit "...")) start_result in
  let w2 := said w1 (lit "Retrieving public IP for VM: " ++ instance ++ lit "...") in
  start_vm self instance w =
  if contains (lit "Error") start_result then
    (Returned false, said w1 (lit "Failed to start the VM."))
  else if contains (lit "Error") public_ip then
    (Returned false, said w2 (lit "Failed to retrieve the public IP."))
  else
    try_except (edit_config self instance public_ip) is_Exception
      (fun e => print_error_occurred e ;;; ret false)
      (said w2 (lit "Public IP obtained: " ++ public_ip)).
Proof.
  intros Hp Hpn Hz Hzn. cbv zeta. unfold start_vm.
  rewrite try_except_bind with (a := (project, zone)) (w1 := w).
  2:{ unfold get_project_and_zone.
      rewrite Hp, Hz, !truthy_nonempty by assumption. reflexivity. }
  cbv beta iota.
  erewrite try_except_bind by reflexivity.
  erewrite try_except_bind by apply run_command_eq.
  erewrite try_except_bind by reflexivity.
  cbn [subprocess_run said set_stdout].
  fold (start_command instance project zone).
  destruct (contains (lit "Error")
              (command_text (subprocess_run w (start_command instance project zone)))).
  { reflexivity. }
  erewrite try_except_bind by reflexivity.
  erewrite try_except_bind by apply run_command_eq.
  cbn [subprocess_run said set_stdout].
  fold (describe_command instance project zone).
  destruct (contains (lit "Error")
              (command_text (subprocess_run w (describe_command instance project zone)))).
  { reflexivity. }
  erewrite try_except_bind by reflexivity.
  reflexivity.
Qed.

(** The two edits of the start sequence on a file without a block of the
    instance. *)
Lemma edit_config_new_host self instance ip w content :
  ssh_config w = Some content ->
  (forall l, In l (readlines content) -> is_target instance l = false) ->
  no_break instance = true -> no_backslash ip = true ->
  exists w' after,
    try_except (edit_config self instance ip) is_Exception
      (fun e => print_error_occurred e ;;; ret false) w
    = (Returned true, w')
    /\ ssh_config w'
       = Some (universal_newlines (content ++ [NL]) ++ entry_host_line instance
               ++ entry_hostname_line ip ++ after).
Proof.
  intros Hc Hno Hn Hip. unfold edit_config.
  erewrite try_except_bind.
  2:{ apply add_host_new with (content := content); [exact Hc|].
      apply not_exists_matches. intros l Hl. apply matches_ignorecase.
      now apply Hno. }
  erewrite try_except_bind.
  2:{ apply update_hostname_entry with (content := content); trivial. }
  cbv beta iota. do 2 eexists. split; [reflexivity|].
  cbn [ssh_config said set_stdout set_file].
  rewrite rewritten_untargeted by exact Hno.
  unfold writelines. rewrite concat_app, concat_readlines. cbn [concat].
  reflexivity.
Qed.

(** C8.  On an existing file without a block of [d] (no Host line names
    d, in whatever case), with project and zone set, a start text without
    "Error" and the address 5.5.5.5 from the cloud calls, start_vm("d")
    returns True and leaves the file with the old content followed by the
    appended block, whose first lines are [Host d] and
    [HostName 5.5.5.5].  The old content comes back as update_hostname
    read it: as it was when it has no carriage return, and otherwise
    with its line ends turned into line feeds. *)
Theorem start_vm_new_host self w content project zone start_text :
  ssh_config w = Some content ->
  (forall l, In l (readlines content) -> is_target (lit "d") l = false) ->
  cfg_project (config self) = Some project -> project <> [] ->
  cfg_zone (config self) = Some zone -> zone <> [] ->
  fst (gcp_utils.start_instance (lit "d") project zone w) = Returned start_text ->
  contains (lit "Error") start_text = false ->
  fst (gcp_utils.get_public_ip (lit "d") project zone w) = Returned (lit "5.5.5.5") ->
  exists w' after,
    start_vm self (lit "d") w = (Returned true, w')
    /\ ssh_config w'
       = Some (universal_newlines (content ++ [NL])
               ++ line "Host d" ++ line "    HostName 5.5.5.5" ++ after)
    /\ (no_cr content = true ->
        ssh_config w'
        = Some (content ++ [NL] ++ line "Host d" ++ line "    HostName 5.5.5.5" ++ after)).
Proof.
  intros Hc Hno Hp Hpn Hz Hzn Hs He Hi.
  assert (Hs' : command_text (subprocess_run w (start_command (lit "d") project zone))
                = start_text).
  { unfold gcp_utils.start_instance in Hs. rewrite run_command_eq in Hs.
    cbn [fst] in Hs. unfold start_command. congruence. }
  assert (Hi' : command_text (subprocess_run w (describe_command (lit "d") project zone))
                = lit "5.5.5.5").
  { unfold gcp_utils.get_public_ip in Hi. rewrite run_command_eq in Hi.
    cbn [fst] in Hi. unfold describe_command. congruence. }
  rewrite (start_vm_steps self (lit "d") w Hp Hpn Hz Hzn).
  rewrite Hs', Hi', He.
  change (contains (lit "Error") (lit "5.5.5.5")) with false. cbv iota.
  match goal with
  | |- exists _ _, try_except _ _ _ ?w0 = _ /\ _ =>
      destruct (@edit_config_new_host self (lit "d") (lit "5.5.5.5") w0 content)
        as (w' & after & H1 & H2); trivial
  end.
  exists w', after. split; [exact H1|]. split; [exact H2|].
  intros Hcr. rewrite H2. unfold universal_newlines.
  rewrite translate_id; [now rewrite <- app_assoc|].
  now rewrite no_cr_app, Hcr.
Qed.

Lemma start_vm_new_host_witness :
  exists w' after,
    start_vm sample_self (lit "d") (sample_world (Some two_blocks) (line " 5.5.5.5"))
    = (Returned true, w')
    /\ ssh_config w'
       = Some (two_blocks ++ [NL] ++ line "Host d" ++ line "    HostName 5.5.5.5" ++ after).
Proof.
  destruct (@start_vm_new_host sample_self
              (sample_world (Some two_blocks) (line " 5.5.5.5"))
              two_blocks (lit "proj") (lit "zone-1") (lit "5.5.5.5"))
    as (w' & after & H1 & _ & H3);
    [..|exists w', after; split; [exact H1|apply H3; reflexivity]].
  - reflexivity.
  - intros l H. vm_compute in H.
    repeat (destruct H as [H|H]; [subst l; reflexivity|]). destruct H.
  - reflexivity.
  - discriminate.
  - reflexivity.
  - discriminate.
  - reflexivity.
  - reflexivity.
  - reflexivity.
Defined.

(** ** The cloud calls *)

(** C10, as stated, fails: the error stream is not returned as captured
    but stripped of the white space around it. *)
Lemma run_command_strips_error_stream :
  let w := failing_world None (line "boom") in
  gcp_utils.start_instance (lit "vm") (lit "p") (lit "z") w
  = (Returned (lit "Error: boom"), w)
  /\ lit "Error: boom" <> lit "Error: " ++ proc_stderr (subprocess_run w []).
Proof. split; [reflexivity|discriminate]. Qed.

Lemma contains_prefix needle s : contains needle (needle ++ s) = true.
Proof.
  assert (H : forall n t, startswith n (n ++ t) = true).
  { induction n as [|c n IH]; simpl; intros t; [reflexivity|].
    now rewrite Ascii.eqb_refl, IH. }
  destruct needle as [|c n]; [now destruct s|].
  change (contains (c :: n) ((c :: n) ++ s))
    with (startswith (c :: n) ((c :: n) ++ s) || contains (c :: n) (n ++ s)).
  now rewrite H.
Qed.

(** C10, amended.  Each cloud call returns, without raising and without
    touching the world: for exit status 0 the captured output stripped,
    otherwise "Error: " followed by the captured error stream stripped of
    the white space around it; that text then contains "Error".  The
    caller start_vm goes by that substring alone: with "Error" in the
    start text it prints the failure and returns False, with "Error" in
    the address text likewise, and otherwise it goes on to edit the SSH
    config. *)
Theorem cloud_calls_report_errors_in_text instance project zone w :
  let text (r : completed) :=
    if (returncode r =? 0)%Z then strip (proc_stdout r)
    else lit "Error: " ++ strip (proc_stderr r) in
  let start_result := text (subprocess_run w (start_command instance project zone)) in
  let public_ip := text (subprocess_run w (describe_command instance project zone)) in
  gcp_utils.start_instance instance project zone w = (Returned start_result, w)
  /\ gcp_utils.stop_instance instance project zone w
     = (Returned (text (subprocess_run w (stop_command instance project zone))), w)
  /\ gcp_utils.get_public_ip instance project zone w = (Returned public_ip, w)
  /\ (forall r, returncode r <> 0%Z -> contains (lit "Error") (text r) = true)
  /\ (forall self,
        cfg_project (config self) = Some project -> project <> [] ->
        cfg_zone (config self) = Some zone -> zone <> [] ->
        let w1 := said (said w (lit "Starting VM: " ++ instance ++ lit "...")) start_result in
        let w2 := said w1 (lit "Retrieving public IP for VM: " ++ instance ++ lit "...") in
        start_vm self instance w =
        if contains (lit "Error") start_result then
          (Returned false, said w1 (lit "Failed to start the VM."))
        else if contains (lit "Error") public_ip then
          (Returned false, said w2 (lit "Failed to retrieve the public IP."))
        else
          try_except (edit_config self instance public_ip) is_Exception
            (fun e => print_error_occurred e ;;; ret false)
            (said w2 (lit "Public IP obtained: " ++ public_ip))).
Proof.
  cbv zeta. split; [apply run_command_eq|]. split; [apply run_command_eq|].
  split; [apply run_command_eq|]. split.
  - intros r Hr. apply Z.eqb_neq in Hr. rewrite Hr.
    change (lit "Error: " ++ strip (proc_stderr r))
      with (lit "Error" ++ (lit ": " ++ strip (proc_stderr r))).
    apply contains_prefix.
  - intros self Hp Hpn Hz Hzn. now apply start_vm_steps.
Qed.

Lemma cloud_calls_report_errors_in_text_witness :
  let w := failing_world (Some two_blocks) (line "quota exceeded") in
  start_vm sample_self (lit "vm") w
  = (Returned false,
     said (said (said w (lit "Starting VM: vm...")) (lit "Error: quota exceeded"))
       (lit "Failed to start the VM.")).
Proof.
  intros w.
  destruct (@cloud_calls_report_errors_in_text (lit "vm") (lit "proj") (lit "zone-1") w)
    as (_ & _ & _ & _ & H).
  rewrite (H sample_self eq_refl ltac:(discriminate) eq_refl ltac:(discriminate)).
  reflexivity.
Defined.

(** * Further properties of the code *)

(** ** What the editing operations do to the file *)

Lemma update_hostname_unfold self host new_ip w :
  update_hostname self host new_ip w =
  match ssh_config w with
  | None =>
      (Returned false,
       said w (lit "Error: Config file " ++ ssh_config_path self ++ lit " not found!"))
  | Some content =>
      match update_loop host new_ip (readlines content) false false [] with
      | Raised e => (Raised e, w)
      | Returned (false, _) =>
          (Returned false,
           said w (lit "Error: Host '" ++ host ++ lit "' not found in config file!"))
      | Returned (true, out) =>
          (Returned true,
           said (set_file w (writelines out))
             (lit "Successfully updated HostName for '" ++ host ++ lit "' to '"
              ++ new_ip ++ lit "' in " ++ ssh_config_path self))
      end
  end.
Proof.
  destruct (ssh_config w) as [content|] eqn:E.
  - destruct (update_loop host new_ip (readlines content) false false [])
      as [[[] out]|e] eqn:El.
    + now apply update_hostname_found with (content := content).
    + now apply update_hostname_not_found with (content := content) (out := out).
    + unfold update_hostname, bind, isfile, open_readlines, lift_outcome.
      rewrite E. change (negb true) with false. cbv beta iota.
      rewrite E. cbv beta iota. now rewrite El.
  - unfold update_hostname, bind, isfile. now rewrite E.
Qed.

Lemma add_host_unfold self name w :
  add_host self name w =
  match ssh_config w with
  | None => (Raised FileNotFoundError, w)
  | Some content =>
      if existsb (fun l => matches false (HOST_NAMED name) l) (readlines content)
      then (Returned false,
            said w (lit "Error: Host '" ++ name ++ lit "' already exists in "
                    ++ ssh_config_path self ++ lit "!"))
      else (Returned true,
            said (set_file w (content ++ new_entry self name))
              (lit "Successfully added new host '" ++ name ++ lit "' to "
               ++ ssh_config_path self))
  end.
Proof.
  destruct (ssh_config w) as [content|] eqn:E.
  - destruct (existsb _ (readlines content)) eqn:Ex.
    + now apply add_host_exists with (content := content).
    + now apply add_host_new.
  - unfold add_host, bind, open_readlines. now rewrite E.
Qed.

(** The only exception [update_loop] raises is the one of the template. *)
Lemma update_loop_raises host new_ip : forall lines hf it acc e,
  update_loop host new_ip lines hf it acc = Raised e -> e = TemplateError.
Proof.
  induction lines as [|l ls IH]; intros hf it acc e; [discriminate|].
  rewrite update_loop_cons. cbv zeta.
  destruct (_ && is_hostname_line l); [|apply IH].
  destruct (sub false HOSTNAME_REST (lit "\g<1>" ++ new_ip) l); [apply IH|].
  now intros [= <-].
Qed.

(** X1.  update_hostname touches the file only when it returns True, and
    then it writes it once: when it returns False or raises, the file and
    the count of writes are what they were. *)
Theorem update_hostname_writes_only_on_success self host new_ip w :
  let w' := snd (update_hostname self host new_ip w) in
  match fst (update_hostname self host new_ip w) with
  | Returned true => writes w' = S (writes w)
  | _ => ssh_config w' = ssh_config w /\ writes w' = writes w
  end.
Proof.
  cbv zeta. rewrite update_hostname_unfold.
  destruct (ssh_config w) as [content|] eqn:E; [|now split].
  destruct (update_loop host new_ip (readlines content) false false [])
    as [[[] out]|e]; simpl; auto.
Qed.

(** X2.  add_host never alters the text the file has: when it returns
    True the new content is the old one followed by the new block, in one
    write; when it returns False or raises, the file and the count of
    writes are what they were. *)
Theorem add_host_only_appends self name w :
  let w' := snd (add_host self name w) in
  match fst (add_host self name w) with
  | Returned true =>
      exists content,
        ssh_config w = Some content
        /\ ssh_config w' = Some (content ++ new_entry self name)
        /\ writes w' = S (writes w)
  | _ => ssh_config w' = ssh_config w /\ writes w' = writes w
  end.
Proof.
  cbv zeta. rewrite add_host_unfold.
  destruct (ssh_config w) as [content|] eqn:E; [|now split].
  destruct (existsb _ (readlines content)); simpl; [now split|].
  now exists content.
Qed.

(** ** The start sequence and exceptions *)

Lemma try_except_raised {A B} (m : M A) (k : A -> M B) catches handler w e w1 :
  m w = (Raised e, w1) -> catches e = true ->
  try_except (bind m k) catches handler w = handler e w1.
Proof. unfold try_except, bind. intros -> H. now rewrite H. Qed.

Lemma truthy_inv v : truthy v = true -> exists s, v = Some s /\ s <> [].
Proof. destruct v as [[|c s]|]; try discriminate. intros _. now exists (c :: s). Qed.

(** X3.  When project or zone is missing from the settings, or empty,
    start_vm does not return False: the SystemExit of get_project_and_zone
    goes through its handler, before anything is printed, run or
    written. *)
Theorem start_vm_without_project_or_zone self instance w :
  truthy (cfg_project (config self)) && truthy (cfg_zone (config self)) = false ->
  start_vm self instance w
  = (Raised (SystemExit (lit "Error: Project and Zone must be set in the config file.")), w).
Proof.
  intros H. unfold start_vm, try_except, bind, get_project_and_zone.
  apply andb_false_iff in H as [H|H]; rewrite H; [reflexivity|].
  now rewrite orb_true_r.
Qed.

Lemma start_vm_without_project_or_zone_witness :
  let self := {| home := lit "/home/user";
                 config := {| cfg_ssh_config := None; cfg_user := None;
                              cfg_project := Some (lit "proj"); cfg_zone := Some [] |} |} in
  start_vm self (lit "vm") (sample_world (Some two_blocks) [])
  = (Raised (SystemExit (lit "Error: Project and Zone must be set in the config file.")),
     sample_world (Some two_blocks) []).
Proof.
  intros self.
  apply (@start_vm_without_project_or_zone self (lit "vm")
           (sample_world (Some two_blocks) [])).
  reflexivity.
Defined.

(** The two edits never leave the handler of start_vm with an exception. *)
Lemma update_stage_returns self instance ip w :
  exists b w',
    try_except
      (update_success <- update_hostname self instance ip ;;
       if update_success then
         print (lit "Successfully updated SSH config for " ++ instance
                ++ lit " with new IP: " ++ ip) ;;;
         ret true
       else ret false)
      is_Exception (fun e => print_error_occurred e ;;; ret false) w
    = (Returned b, w').
Proof.
  pose proof (update_hostname_unfold self instance ip w) as Eu.
  destruct (ssh_config w) as [content|].
  - destruct (update_loop instance ip (readlines content) false false [])
      as [[[] out]|e] eqn:El.
    + erewrite try_except_bind by exact Eu. now do 2 eexists.
    + erewrite try_except_bind by exact Eu. now do 2 eexists.
    + apply update_loop_raises in El. subst e.
      erewrite try_except_raised by (exact Eu || reflexivity). now do 2 eexists.
  - erewrite try_except_bind by exact Eu. now do 2 eexists.
Qed.

Lemma edit_config_returns self instance ip w :
  exists b w',
    try_except (edit_config self instance ip) is_Exception
      (fun e => print_error_occurred e ;;; ret false) w
    = (Returned b, w').
Proof.
  unfold edit_config.
  pose proof (add_host_unfold self instance w) as Ea.
  destruct (ssh_config w) as [content|].
  - destruct (existsb _ (readlines content)).
    + erewrite try_except_bind by exact Ea. apply update_stage_returns.
    + erewrite try_except_bind by exact Ea. apply update_stage_returns.
  - erewrite try_except_raised by (exact Ea || reflexivity). now do 2 eexists.
Qed.

Lemma start_vm_returns_bool self instance w :
  truthy (cfg_project (config self)) = true ->
  truthy (cfg_zone (config self)) = true ->
  exists b w', start_vm self instance w = (Returned b, w').
Proof.
  intros Hp Hz.
  apply truthy_inv in Hp as (project & Hp & Hpn).
  apply truthy_inv in Hz as (zone & Hz & Hzn).
  rewrite (start_vm_steps self instance w Hp Hpn Hz Hzn).
  destruct (contains (lit "Error") _); [now do 2 eexists|].
  destruct (contains (lit "Error") _); [now do 2 eexists|].
  apply edit_config_returns.
Qed.

(** X4.  With project and zone set, start_vm always returns a boolean:
    whatever the cloud calls answer and whatever state the SSH config is
    in, no exception leaves it. *)
Theorem start_vm_returns self instance w :
  truthy (cfg_project (config self)) = true ->
  truthy (cfg_zone (config self)) = true ->
  exists b w', start_vm self instance w = (Returned b, w').
Proof. apply start_vm_returns_bool. Qed.

Lemma start_vm_returns_witness :
  exists b w',
    start_vm sample_self (lit "vm") (failing_world None (line "no such instance"))
    = (Returned b, w').
Proof.
  apply (@start_vm_returns sample_self (lit "vm")
           (failing_world None (line "no such instance"))); reflexivity.
Defined.

(** X5.  With project and zone set and no SSH config file, start_vm
    returns False and creates no file; when both cloud calls gave a text
    without "Error", what it prints last is the line for the
    FileNotFoundError that add_host raised. *)
Theorem start_vm_missing_config_file self instance w :
  truthy (cfg_project (config self)) = true ->
  truthy (cfg_zone (config self)) = true ->
  ssh_config w = None ->
  exists w',
    start_vm self instance w = (Returned false, w')
    /\ ssh_config w' = None /\ writes w' = writes w
    /\ (contains (lit "Error")
          (command_text (subprocess_run w
             (start_command instance (get_fallback (cfg_project (config self)) [])
                (get_fallback (cfg_zone (config self)) [])))) = false ->
        contains (lit "Error")
          (command_text (subprocess_run w
             (describe_command instance (get_fallback (cfg_project (config self)) [])
                (get_fallback (cfg_zone (config self)) [])))) = false ->
        exists before, stdout w' = before ++ [SayErrorOccurred FileNotFoundError]).
Proof.
  intros Hp Hz Hc.
  apply truthy_inv in Hp as (project & Hp & Hpn).
  apply truthy_inv in Hz as (zone & Hz & Hzn).
  rewrite (start_vm_steps self instance w Hp Hpn Hz Hzn), Hp, Hz.
  cbn [get_fallback].
  destruct (contains (lit "Error") _).
  { eexists. split; [reflexivity|]. split; [exact Hc|]. split; [reflexivity|].
    discriminate. }
  destruct (contains (lit "Error") _).
  { eexists. split; [reflexivity|]. split; [exact Hc|]. split; [reflexivity|].
    intros _. discriminate. }
  unfold edit_config.
  erewrite try_except_raised.
  2:{ rewrite add_host_unfold. cbn [ssh_config said set_stdout]. rewrite Hc.
      reflexivity. }
  2:{ reflexivity. }
  eexists. split; [reflexivity|]. split; [exact Hc|]. split; [reflexivity|].
  intros _ _. eexists. reflexivity.
Qed.

Lemma start_vm_missing_config_file_witness :
  exists w',
    start_vm sample_self (lit "vm") (sample_world None (line "5.5.5.5"))
    = (Returned false, w')
    /\ ssh_config w' = None
    /\ exists before, stdout w' = before ++ [SayErrorOccurred FileNotFoundError].
Proof.
  destruct (@start_vm_missing_config_file sample_self (lit "vm")
              (sample_world None (line "5.5.5.5")) eq_refl eq_refl eq_refl)
    as (w' & H1 & H2 & _ & H4).
  exists w'. split; [exact H1|]. split; [exact H2|].
  apply H4; reflexivity.
Defined.

(** X6.  When the file already has a line that add_host takes for the
    Host line of the instance, and both cloud calls gave a text without
    "Error", start_vm appends nothing: it leaves the file as
    update_hostname(instance, address) alone leaves it, and returns what
    update_hostname returns, or False if update_hostname raises. *)
Theorem start_vm_existing_host self instance w content project zone start_text ip :
  ssh_config w = Some content ->
  existsb (fun l => matches false (HOST_NAMED instance) l) (readlines content) = true ->
  cfg_project (config self) = Some project -> project <> [] ->
  cfg_zone (config self) = Some zone -> zone <> [] ->
  fst (gcp_utils.start_instance instance project zone w) = Returned start_text ->
  contains (lit "Error") start_text = false ->
  fst (gcp_utils.get_public_ip instance project zone w) = Returned ip ->
  contains (lit "Error") ip = false ->
  ssh_config (snd (start_vm self instance w))
  = ssh_config (snd (update_hostname self instance ip w))
  /\ fst (start_vm self instance w)
     = match fst (update_hostname self instance ip w) with
       | Returned b => Returned b
       | Raised _ => Returned false
       end.
Proof.
  intros Hc Hex Hp Hpn Hz Hzn Hs He Hi Hie.
  assert (Hs' : command_text (subprocess_run w (start_command instance project zone))
                = start_text).
  { unfold gcp_utils.start_instance in Hs. rewrite run_command_eq in Hs.
    cbn [fst] in Hs. unfold start_command. congruence. }
  assert (Hi' : command_text (subprocess_run w (describe_command instance project zone))
                = ip).
  { unfold gcp_utils.get_public_ip in Hi. rewrite run_command_eq in Hi.
    cbn [fst] in Hi. unfold describe_command. congruence. }
  rewrite (start_vm_steps self instance w Hp Hpn Hz Hzn).
  rewrite Hs', Hi', He, Hie. unfold edit_config.
  erewrite try_except_bind.
  2:{ rewrite add_host_unfold. cbn [ssh_config said set_stdout]. rewrite Hc, Hex.
      reflexivity. }
  match goal with
  | |- context [try_except _ _ _ ?w4] =>
      pose proof (update_hostname_unfold self instance ip w4) as Eu;
      cbn [ssh_config said set_stdout] in Eu; rewrite Hc in Eu
  end.
  rewrite (update_hostname_unfold self instance ip w), Hc.
  destruct (update_loop instance ip (readlines content) false false [])
    as [[[] out]|e] eqn:El.
  - erewrite try_except_bind by exact Eu. split; reflexivity.
  - erewrite try_except_bind by exact Eu. split; [|reflexivity].
    cbn [snd ssh_config said set_stdout]. reflexivity.
  - apply update_loop_raises in El. subst e.
    erewrite try_except_raised by (exact Eu || reflexivity). split; [|reflexivity].
    cbn [snd]. reflexivity.
Qed.

Lemma start_vm_existing_host_witness :
  ssh_config (snd (start_vm sample_self (lit "a")
                     (sample_world (Some two_blocks) (line "5.5.5.5"))))
  = Some (line "Host a" ++ line "HostName 5.5.5.5" ++ line "Host b"
          ++ line "HostName 10.0.0.2")
  /\ fst (start_vm sample_self (lit "a") (sample_world (Some two_blocks) (line "5.5.5.5")))
     = Returned true.
Proof.
  destruct (@start_vm_existing_host sample_self (lit "a")
              (sample_world (Some two_blocks) (line "5.5.5.5")) two_blocks
              (lit "proj") (lit "zone-1") (lit "5.5.5.5") (lit "5.5.5.5"))
    as (H1 & H2); try reflexivity; try discriminate.
  split.
  - rewrite H1. reflexivity.
  - rewrite H2. reflexivity.
Defined.

(** ** The host argument of update_hostname *)

Lemma star_ext k (r1 r2 : cont) :
  (forall pos s, r1 pos s = r2 pos s) ->
  forall s pos, star k r1 pos s = star k r2 pos s.
Proof.
  intros H. induction s as [|a s IH]; simpl; intros pos; [apply H|].
  rewrite IH, H. reflexivity.
Qed.

Lemma exec_app_ext ic p x y :
  (forall g pos s, exec ic x g pos s = exec ic y g pos s) ->
  forall g pos s, exec ic (p ++ x) g pos s = exec ic (p ++ y) g pos s.
Proof.
  intros H. induction p as [|i p IH]; intros g pos s; [apply H|].
  destruct i; cbn [app exec].
  - now rewrite IH.
  - destruct s as [|c0 [|d s]]; now rewrite ?IH.
  - destruct s as [|a s]; [reflexivity|]. now rewrite IH.
  - apply star_ext. intros. apply IH.
  - destruct s as [|a s]; [reflexivity|]. destruct (in_cls k a); [|reflexivity].
    apply star_ext. intros. apply IH.
  - apply IH.
  - apply IH.
Qed.

Lemma exec_escape_lower q : forall h1 h2,
  map lower h1 = map lower h2 ->
  forall g pos s,
    exec true (escape h1 ++ q) g pos s = exec true (escape h2 ++ q) g pos s.
Proof.
  induction h1 as [|c h1 IH]; intros [|c' h2] H g pos s; try discriminate;
    [reflexivity|].
  injection H as Hc Hh. cbn [escape map app exec].
  destruct s as [|a s]; [reflexivity|].
  unfold chr_eq. rewrite Hc. destruct (Ascii.eqb (lower c') (lower a)); [|reflexivity].
  now apply IH.
Qed.

Lemma is_target_lower h1 h2 l :
  map lower h1 = map lower h2 -> is_target h1 l = is_target h2 l.
Proof.
  intros H. unfold is_target, matches, rmatch_at0.
  change (HOST_NAMED h1) with (HOST ++ (escape h1 ++ [Star Space; Eol])).
  change (HOST_NAMED h2) with (HOST ++ (escape h2 ++ [Star Space; Eol])).
  now rewrite (@exec_app_ext true HOST (escape h1 ++ [Star Space; Eol])
                 (escape h2 ++ [Star Space; Eol])
                 (@exec_escape_lower [Star Space; Eol] h1 h2 H)).
Qed.

Lemma update_loop_lower h1 h2 new_ip :
  map lower h1 = map lower h2 ->
  forall lines hf it acc,
    update_loop h1 new_ip lines hf it acc = update_loop h2 new_ip lines hf it acc.
Proof.
  intros H. induction lines as [|l ls IH]; intros hf it acc; [reflexivity|].
  rewrite !update_loop_cons. cbv zeta. rewrite (@is_target_lower h1 h2 l H).
  destruct (_ && is_hostname_line l); [|apply IH].
  destruct (sub false HOSTNAME_REST (lit "\g<1>" ++ new_ip) l); [apply IH|reflexivity].
Qed.

(** X7.  update_hostname takes host names that differ only in the case of
    their letters for the same name: it returns the same result and
    leaves the same file for both (the message it prints spells the name
    as given). *)
Theorem update_hostname_ignores_case self h1 h2 new_ip w :
  map lower h1 = map lower h2 ->
  fst (update_hostname self h1 new_ip w) = fst (update_hostname self h2 new_ip w)
  /\ ssh_config (snd (update_hostname self h1 new_ip w))
     = ssh_config (snd (update_hostname self h2 new_ip w))
  /\ writes (snd (update_hostname self h1 new_ip w))
     = writes (snd (update_hostname self h2 new_ip w)).
Proof.
  intros H. rewrite !update_hostname_unfold.
  destruct (ssh_config w) as [content|]; [|now repeat split].
  rewrite (@update_loop_lower h1 h2 new_ip H).
  destruct (update_loop h2 new_ip (readlines content) false false [])
    as [[[] out]|e]; now repeat split.
Qed.

Lemma update_hostname_ignores_case_witness :
  fst (update_hostname sample_self (lit "Web-1") (lit "2.2.2.2")
         (sample_world (Some (line "Host web-1" ++ line "  HostName 10.0.0.1")) []))
  = fst (update_hostname sample_self (lit "WEB-1") (lit "2.2.2.2")
           (sample_world (Some (line "Host web-1" ++ line "  HostName 10.0.0.1")) [])).
Proof.
  apply (@update_hostname_ignores_case sample_self (lit "Web-1") (lit "WEB-1")
           (lit "2.2.2.2")
           (sample_world (Some (line "Host web-1" ++ line "  HostName 10.0.0.1")) [])).
  reflexivity.
Defined.

(** ** What update_hostname leaves alone, whatever the new value *)

Lemma update_loop_frame host new_ip : forall lines pre hf acc r out,
  update_loop host new_ip lines hf (flag host pre) acc = Returned (r, out) ->
  exists out',
    out = acc ++ out' /\ length out' = length lines
    /\ forall i l, nth_error lines i = Some l ->
         flag host (pre ++ firstn (S i) lines) && is_hostname_line l = false ->
         nth_error out' i = Some l.
Proof.
  induction lines as [|l ls IH]; intros pre hf acc r out.
  - simpl. intros [= _ <-]. exists []. rewrite app_nil_r. repeat split.
    intros [|i] l'; discriminate.
  - rewrite update_loop_cons. cbv zeta. rewrite <- flag_snoc.
    destruct (flag host (pre ++ [l]) && is_hostname_line l) eqn:E.
    + destruct (sub false HOSTNAME_REST (lit "\g<1>" ++ new_ip) l) as [ml|];
        [|discriminate].
      intros H. apply IH in H as (out' & -> & Hlen & Hnth).
      exists (ml :: out'). rewrite <- app_assoc. split; [reflexivity|].
      split; [simpl; now rewrite Hlen|].
      intros [|i] l' Hl Hf.
      * injection Hl as <-. simpl in Hf. rewrite E in Hf. discriminate.
      * apply Hnth; [exact Hl|]. now rewrite <- firstn_S_cons.
    + intros H. apply IH in H as (out' & -> & Hlen & Hnth).
      exists (l :: out'). rewrite <- app_assoc. split; [reflexivity|].
      split; [simpl; now rewrite Hlen|].
      intros [|i] l' Hl Hf.
      * now injection Hl as <-.
      * apply Hnth; [exact Hl|]. now rewrite <- firstn_S_cons.
Qed.

Lemma firstn_ext {A} n : forall (a b : list A),
  length a = length b ->
  (forall i x, i < n -> nth_error b i = Some x -> nth_error a i = Some x) ->
  firstn n a = firstn n b.
Proof.
  induction n as [|n IH]; intros [|x a] [|y b] Hlen H; try reflexivity;
    try discriminate.
  simpl. f_equal.
  - specialize (H 0 y (Nat.lt_0_succ n) eq_refl). now injection H.
  - apply IH; [now injection Hlen|].
    intros i z Hi Hz. apply (H (S i) z); [lia|exact Hz].
Qed.

Lemma shaped_firstn ls : forall n,
  shaped ls -> n < length ls -> Forall (fun l => is_line l = true) (firstn n ls).
Proof.
  intros n H. revert n.
  induction H as [|body Hb Hne|body ls Hb _ IH]; intros [|n] Hn;
    try (now constructor); simpl in Hn.
  - lia.
  - simpl. constructor; [now apply is_line_intro|]. apply IH. lia.
Qed.

Lemma Forall_firstn_of {A} (P : A -> Prop) n : forall l,
  Forall P l -> Forall P (firstn n l).
Proof.
  induction n as [|n IH]; intros [|x l] H; simpl; try constructor;
    inversion H; subst; auto.
Qed.

Lemma readlines_prefix pre rest :
  Forall (fun l => is_line l = true) pre -> Forall (fun l => no_cr l = true) pre ->
  readlines (concat pre ++ rest) = pre ++ readlines rest.
Proof.
  induction 1 as [|l ls Hl _ IH]; intros Hc; [reflexivity|].
  inversion Hc; subst. simpl. rewrite <- app_assoc.
  rewrite readlines_line by assumption. now rewrite IH.
Qed.

(** X8.  Whatever the new value is (escapes included), when
    update_hostname returns True the file written starts with the lines
    that come before the first HostName line lying in a block of the
    host, as they were read: if none of the first [n] lines read is such
    a HostName line, and more than [n] lines were read, the first [n]
    lines of the file written are the first [n] lines read. *)
Theorem update_hostname_keeps_leading_lines self host new_ip w content n :
  ssh_config w = Some content ->
  fst (update_hostname self host new_ip w) = Returned true ->
  n < length (readlines content) ->
  (forall i l, i < n -> nth_error (readlines content) i = Some l ->
     in_block host (readlines content) i && is_hostname_line l = false) ->
  exists file',
    ssh_config (snd (update_hostname self host new_ip w)) = Some file'
    /\ firstn n (readlines file') = firstn n (readlines content).
Proof.
  intros Hc. rewrite update_hostname_unfold, Hc.
  destruct (update_loop host new_ip (readlines content) false false [])
    as [[[] out]|e] eqn:El; try discriminate.
  intros _ Hn Hkeep.
  change (update_loop ?h ?ip ?l false false [])
    with (update_loop h ip l false (flag h []) []) in El.
  apply update_loop_frame in El as (out' & -> & Hlen & Hnth).
  eexists. split; [reflexivity|].
  assert (E : firstn n out' = firstn n (readlines content)).
  { apply firstn_ext; [exact Hlen|].
    intros i l Hi Hl. apply Hnth; [exact Hl|]. now apply Hkeep. }
  cbn [app]. unfold writelines.
  rewrite <- (firstn_skipn n out') at 1. rewrite concat_app, E.
  rewrite readlines_prefix.
  - rewrite firstn_app, firstn_firstn, Nat.min_id.
    rewrite length_firstn, Nat.min_l by lia.
    rewrite Nat.sub_diag. cbn [firstn]. now rewrite app_nil_r.
  - apply shaped_firstn; [apply readlines_shaped|exact Hn].
  - apply Forall_firstn_of, readlines_no_cr.
Qed.

Lemma update_hostname_keeps_leading_lines_witness :
  exists file',
    ssh_config (snd (update_hostname sample_self (lit "b") (lit "10.0.0.9\tx")
                       (sample_world (Some two_blocks) [])))
    = Some file'
    /\ firstn 3 (readlines file')
       = [line "Host a"; line "HostName 10.0.0.1"; line "Host b"].
Proof.
  destruct (@update_hostname_keeps_leading_lines sample_self (lit "b")
              (lit "10.0.0.9\tx") (sample_world (Some two_blocks) []) two_blocks 3
              eq_refl eq_refl)
    as (file' & H1 & H2).
  - vm_compute. lia.
  - intros i l Hi Hl.
    destruct i as [|[|[|i]]]; [| | |lia];
      vm_compute in Hl; injection Hl as <-; reflexivity.
  - exists file'. split; [exact H1|]. rewrite H2. reflexivity.
Defined.

(** ** list_hostnames without a Host line *)

Lemma emitted_no_host : forall lines pre,
  current_host pre = None ->
  (forall l, In l lines -> host_capture l = None) ->
  emitted pre lines = [].
Proof.
  induction lines as [|l ls IH]; intros pre Hcur H; [reflexivity|].
  assert (E : current_host (pre ++ [l]) = None).
  { rewrite current_host_snoc, (H l) by now left. exact Hcur. }
  simpl. unfold emits. rewrite E. simpl truthy.
  rewrite IH; [|exact E|intros; apply H; now right].
  now destruct (hostname_capture l).
Qed.

(** X9.  HostName lines that no Host line precedes are not listed: on a
    file in which the Host pattern of list_hostnames matches no line, the
    list is empty. *)
Theorem list_hostnames_without_host_line self w content :
  ssh_config w = Some content ->
  (forall l, In l (readlines content) -> host_capture l = None) ->
  list_hostnames self w = (Returned [], w).
Proof.
  intros Hc H. rewrite (list_hostnames_lines self w Hc).
  change (list_loop ?l None []) with (list_loop l (current_host []) []).
  rewrite list_loop_spec. now rewrite emitted_no_host.
Qed.

Lemma list_hostnames_without_host_line_witness :
  list_hostnames sample_self
    (sample_world (Some (line "HostName 10.0.0.1" ++ line "  User alice")) [])
  = (Returned [], sample_world (Some (line "HostName 10.0.0.1" ++ line "  User alice")) []).
Proof.
  apply (@list_hostnames_without_host_line sample_self
           (sample_world (Some (line "HostName 10.0.0.1" ++ line "  User alice")) [])
           (line "HostName 10.0.0.1" ++ line "  User alice")).
  - reflexivity.
  - intros l H. vm_compute in H.
    repeat (destruct H as [H|H]; [subst l; reflexivity|]). destruct H.
Defined.

(** ** The appended block, line by line *)

Lemma forallb_path_join (p : ascii -> bool) a b :
  p "/"%char = true -> forallb p a = true -> forallb p b = true ->
  forallb p (path_join a b) = true.
Proof.
  intros Hs Ha Hb. unfold path_join.
  assert (H1 : forallb p (a ++ b) = true) by now rewrite forallb_app, Ha, Hb.
  assert (H2 : forallb p (a ++ lit "/" ++ b) = true).
  { rewrite !forallb_app, Ha, Hb. simpl. now rewrite Hs. }
  destruct (rev a) as [|[[] [] [] [] [] [] [] []] t]; assumption.
Qed.

Lemma forallb_ssh_dir (p : ascii -> bool) self :
  forallb p (lit "/.ssh/") = true -> forallb p (home self) = true ->
  forallb p (ssh_dir self) = true.
Proof.
  intros Hs Hh. unfold ssh_dir, expanduser. cbv iota beta.
  change (lit "~/.ssh/") with ("~"%char :: lit "/.ssh/"). cbv iota beta.
  now rewrite forallb_app, Hh, Hs.
Qed.

Lemma entry_tail_concat self : concat (entry_tail_lines self) = entry_tail self.
Proof.
  unfold entry_tail_lines, entry_tail, line. cbn [concat].
  rewrite <- !app_assoc. rewrite app_nil_r. reflexivity.
Qed.

Lemma entry_tail_lines_are_lines self :
  no_nl (home self) = true -> no_nl (get_ssh_user self) = true ->
  Forall (fun l => is_line l = true) (entry_tail_lines self).
Proof.
  intros Hh Hu.
  assert (Hd : no_nl (ssh_dir self) = true) by now apply forallb_ssh_dir.
  unfold entry_tail_lines. repeat constructor.
  - rewrite app_assoc. apply is_line_intro. apply no_nl_app; [reflexivity|].
    now apply forallb_path_join.
  - rewrite app_assoc. apply is_line_intro. apply no_nl_app; [reflexivity|].
    now apply forallb_path_join.
  - rewrite app_assoc. apply is_line_intro. now apply no_nl_app.
Qed.

Lemma entry_tail_no_cr self :
  no_cr (home self) = true -> no_cr (get_ssh_user self) = true ->
  no_cr (entry_tail self) = true.
Proof.
  intros Hh Hu.
  assert (Hd : no_cr (ssh_dir self) = true) by now apply forallb_ssh_dir.
  unfold entry_tail. rewrite !no_cr_app, Hu.
  assert (H1 : no_cr (path_join (ssh_dir self) (lit "google_compute_engine")) = true)
    by now apply forallb_path_join.
  assert (H2 : no_cr (path_join (ssh_dir self) (lit "google_compute_known_hosts")) = true)
    by now apply forallb_path_join.
  now rewrite H1, H2.
Qed.

(** A line whose first word does not start with an H or h is no Host line
    and no HostName line for any of the patterns. *)
Lemma not_h_line indent c s :
  is_indent indent = true -> is_space c = false -> chr_eq true "H" c = false ->
  host_capture (indent ++ c :: s) = None
  /\ hostname_capture (indent ++ c :: s) = None
  /\ is_hostname_line (indent ++ c :: s) = false
  /\ is_host_line (indent ++ c :: s) = false.
Proof.
  intros Hi Hc Hh.
  assert (H : forall p,
            rmatch_at0 true ([Bol; Star Space] ++ Lit "H"%char :: p) (indent ++ c :: s)
            = None).
  { intros p. unfold rmatch_at0.
    change (exec true ([Bol; Star Space] ++ ?q) ?g 0 ?t)
      with (star Space (exec true q g) 0 t).
    rewrite star_skip; trivial.
    - cbn [exec]. now rewrite Hh.
    - intros pos a t Ha. now apply exec_lit_space.
    - simpl. now rewrite Hc. }
  unfold host_capture, hostname_capture, is_hostname_line, is_host_line, matches.
  unfold HOST_VALUE, HOSTNAME_VALUE, HOSTNAME, HOST.
  change (lits "Host" ++ ?q) with (Lit "H"%char :: lits "ost" ++ q).
  change (lits "HostName" ++ ?q) with (Lit "H"%char :: lits "ostName" ++ q).
  now rewrite !H.
Qed.

Lemma entry_tail_lines_plain self l :
  In l (entry_tail_lines self) ->
  host_capture l = None /\ hostname_capture l = None
  /\ is_hostname_line l = false /\ is_host_line l = false.
Proof.
  unfold entry_tail_lines. intros [<-|[<-|[<-|[<-|[<-|[]]]]]].
  - apply (@not_h_line (lit "    ") "I"%char
             (lit "dentityFile " ++ path_join (ssh_dir self) (lit "google_compute_engine")
              ++ [NL])); reflexivity.
  - apply (@not_h_line (lit "    ") "U"%char
             (lit "serKnownHostsFile="
              ++ path_join (ssh_dir self) (lit "google_compute_known_hosts") ++ [NL]));
      reflexivity.
  - repeat split.
  - repeat split.
  - apply (@not_h_line (lit "    ") "U"%char (lit "ser " ++ get_ssh_user self ++ [NL]));
      reflexivity.
Qed.

Lemma no_break_inv s : no_break s = true -> no_nl s = true /\ no_cr s = true.
Proof. intros H. now apply andb_true_iff in H. Qed.

Lemma readlines_entry_tail self :
  no_break (home self) = true -> no_break (get_ssh_user self) = true ->
  readlines (entry_tail self) = entry_tail_lines self.
Proof.
  intros Hh Hu. apply no_break_inv in Hh as [Hh Hh'], Hu as [Hu Hu'].
  rewrite <- entry_tail_concat.
  apply readlines_concat; [now apply entry_tail_lines_are_lines|].
  rewrite entry_tail_concat. now apply entry_tail_no_cr.
Qed.

Lemma no_nl_of_value v : is_value v = true -> no_nl v = true.
Proof. destruct v; [discriminate|]. intros H. now apply andb_true_iff in H. Qed.

(** add_host followed by update_hostname on a file without a block of
    the name. *)
Lemma add_then_update self name ip w content :
  ssh_config w = Some content ->
  (forall l, In l (readlines content) -> is_target name l = false) ->
  no_break name = true -> no_backslash ip = true ->
  no_break (home self) = true -> no_break (get_ssh_user self) = true ->
  exists w1 w2,
    add_host self name w = (Returned true, w1)
    /\ update_hostname self name ip w1 = (Returned true, w2)
    /\ ssh_config w2
       = Some (universal_newlines (content ++ [NL]) ++ entry_block self name ip)
    /\ writes w2 = S (S (writes w)).
Proof.
  intros Hc Hno Hn Hip Hh Hu. do 2 eexists. split; [|split].
  - apply add_host_new with (content := content); [exact Hc|].
    apply not_exists_matches. intros l Hl. apply matches_ignorecase. now apply Hno.
  - apply update_hostname_entry with (content := content); trivial.
  - cbn [ssh_config writes said set_stdout set_file]. split; [|reflexivity]. f_equal.
    rewrite rewritten_untargeted by exact Hno.
    rewrite readlines_entry_tail by assumption.
    rewrite rewritten_same.
    2:{ intros i l Hl _. apply nth_error_In in Hl.
        now destruct (@entry_tail_lines_plain self l Hl) as (_ & _ & H & _). }
    unfold writelines. rewrite concat_app, concat_readlines. cbn [concat].
    rewrite entry_tail_concat. unfold entry_block, entry_host_line, entry_hostname_line,
      host_line, hostname_line.
    cbn [app]. rewrite <- !app_assoc. reflexivity.
Qed.

(** X10.  Take a file without a block of the name (no Host line names
    it, in whatever case), a name without line break, a new value without
    backslash, and a home directory and a user name without line break.
    Then add_host(name) followed by update_hostname(name, ip) leaves,
    after two writes, the old content as update_hostname read it, a line
    feed (unless the old content ends with a carriage return, which is
    read as that line feed), and the block add_host appends with [ip] in
    place of the placeholder 1.1.1.1.  The old content as read is the
    old content itself when it has no carriage return; otherwise its
    line ends have become line feeds. *)
Theorem add_host_then_update_hostname_file self name ip w content :
  ssh_config w = Some content ->
  (forall l, In l (readlines content) -> is_target name l = false) ->
  no_break name = true -> no_backslash ip = true ->
  no_break (home self) = true -> no_break (get_ssh_user self) = true ->
  new_entry self name = [NL] ++ entry_block self name (lit "1.1.1.1")
  /\ exists w1 w2,
       add_host self name w = (Returned true, w1)
       /\ update_hostname self name ip w1 = (Returned true, w2)
       /\ ssh_config w2
          = Some (universal_newlines (content ++ [NL]) ++ entry_block self name ip)
       /\ writes w2 = S (S (writes w))
       /\ (no_cr content = true ->
           ssh_config w2 = Some (content ++ [NL] ++ entry_block self name ip)).
Proof.
  intros Hc Hno Hn Hip Hh Hu. split.
  { unfold new_entry, entry_block, entry_tail. cbn [app].
    rewrite <- !app_assoc. reflexivity. }
  destruct (@add_then_update self name ip w content Hc Hno Hn Hip Hh Hu)
    as (w1 & w2 & H1 & H2 & H3 & H4).
  exists w1, w2. repeat (split; [assumption|]).
  intros Hcr. rewrite H3. rewrite universal_newlines_id.
  - now rewrite <- app_assoc.
  - now rewrite no_cr_app, Hcr.
Qed.

Lemma add_host_then_update_hostname_file_witness :
  exists w1 w2,
    add_host sample_self (lit "c") (sample_world (Some two_blocks) []) = (Returned true, w1)
    /\ update_hostname sample_self (lit "c") (lit "3.3.3.3") w1 = (Returned true, w2)
    /\ ssh_config w2
       = Some (two_blocks ++ [NL] ++ line "Host c" ++ line "    HostName 3.3.3.3"
               ++ line "    IdentityFile /home/user/.ssh/google_compute_engine"
               ++ line "    UserKnownHostsFile=/home/user/.ssh/google_compute_known_hosts"
               ++ line "    IdentitiesOnly=yes" ++ line "    CheckHostIP=no"
               ++ line "    User alice").
Proof.
  destruct (@add_host_then_update_hostname_file sample_self (lit "c") (lit "3.3.3.3")
              (sample_world (Some two_blocks) []) two_blocks)
    as (_ & w1 & w2 & H1 & H2 & _ & _ & H3); try reflexivity.
  - intros l H. vm_compute in H.
    repeat (destruct H as [H|H]; [subst l; reflexivity|]). destruct H.
  - exists w1, w2. split; [exact H1|]. split; [exact H2|].
    rewrite H3 by reflexivity. reflexivity.
Defined.

(** The lines of a file that ends with a line feed, once one more line
    feed is added. *)
Lemma readlines_snoc_nl content :
  Forall (fun l => is_line l = true) (readlines content) ->
  readlines (content ++ [NL])
  = readlines content ++ (if ends_cr false content then [] else [[NL]]).
Proof.
  unfold readlines, universal_newlines. intros H.
  rewrite translate_app, translate_nl. cbn [translate_from]. rewrite app_nil_r.
  destruct (ends_cr false content); [now rewrite !app_nil_r|].
  rewrite <- (concat_splitlines (translate_from false content)) at 1.
  replace (concat (splitlines (translate_from false content)) ++ [NL])
    with (concat (splitlines (translate_from false content) ++ [[NL]]))
    by (rewrite concat_app; reflexivity).
  apply splitlines_concat. apply Forall_app. split; [exact H|now constructor].
Qed.

(** The lines of the file after the two edits. *)
Lemma readlines_edited self name ip content :
  Forall (fun l => is_line l = true) (readlines content) ->
  no_break name = true -> no_break ip = true ->
  no_break (home self) = true -> no_break (get_ssh_user self) = true ->
  readlines (universal_newlines (content ++ [NL]) ++ entry_block self name ip)
  = readlines (content ++ [NL])
    ++ entry_host_line name :: entry_hostname_line ip :: entry_tail_lines self.
Proof.
  intros Hl Hn Hip Hh Hu.
  apply no_break_inv in Hn as [Hn Hn'], Hip as [Hip Hip'],
    Hh as [Hh Hh'], Hu as [Hu Hu'].
  assert (E : universal_newlines (content ++ [NL]) ++ entry_block self name ip
              = concat (readlines (content ++ [NL])
                        ++ entry_host_line name :: entry_hostname_line ip
                           :: entry_tail_lines self)).
  { rewrite concat_app, concat_readlines. cbn [concat]. rewrite entry_tail_concat.
    unfold entry_block, entry_host_line, entry_hostname_line, host_line, hostname_line.
    cbn [app]. rewrite <- !app_assoc. reflexivity. }
  rewrite E. apply readlines_concat.
  - apply Forall_app. split.
    + rewrite readlines_snoc_nl by exact Hl. apply Forall_app. split; [exact Hl|].
      destruct (ends_cr false content); now repeat constructor.
    + constructor.
      * unfold entry_host_line, host_line. cbn [app].
        change (lit "Host" ++ lit " " ++ name ++ [NL]) with ((lit "Host " ++ name) ++ [NL]).
        apply is_line_intro. now apply no_nl_app.
      * constructor; [|now apply entry_tail_lines_are_lines].
        unfold entry_hostname_line, hostname_line.
        change (lit "    " ++ lit "HostName" ++ lit " " ++ ip ++ [NL])
          with ((lit "    HostName " ++ ip) ++ [NL]).
        apply is_line_intro. now apply no_nl_app.
  - rewrite <- E. rewrite no_cr_app, universal_newlines_no_cr.
    unfold entry_block. rewrite !no_cr_app, Hn', Hip'.
    now rewrite entry_tail_no_cr.
Qed.

(** The list of lines that end with the block of [name] carrying [ip]. *)
Lemma list_with_entry self name ip lines :
  is_value name = true -> is_value ip = true ->
  list_loop (lines ++ entry_host_line name :: entry_hostname_line ip
             :: entry_tail_lines self) None []
  = list_loop lines None [] ++ [name ++ lit " -> " ++ ip].
Proof.
  intros Hn Hip.
  change (list_loop ?l None []) with (list_loop l (current_host []) []).
  rewrite !list_loop_spec. cbn [app]. rewrite emitted_app. f_equal.
  cbn [emitted app].
  assert (C1 : current_host (lines ++ [entry_host_line name]) = Some name).
  { rewrite current_host_snoc. unfold host_capture, entry_host_line.
    now rewrite host_value_host_line. }
  assert (E2 : emits lines (entry_host_line name) = []).
  { unfold emits, hostname_capture, entry_host_line.
    now rewrite hostname_value_host_line. }
  assert (C2 : current_host ((lines ++ [entry_host_line name])
                             ++ [entry_hostname_line ip]) = Some name).
  { assert (N : host_capture (entry_hostname_line ip) = None).
    { unfold host_capture, entry_hostname_line.
      now rewrite host_value_hostname_line. }
    rewrite current_host_snoc, N. exact C1. }
  assert (E3 : emits (lines ++ [entry_host_line name]) (entry_hostname_line ip)
               = [name ++ lit " -> " ++ ip]).
  { unfold emits. rewrite C2. unfold hostname_capture, entry_hostname_line.
    rewrite hostname_value_hostname_line by trivial.
    now rewrite (is_value_nonempty _ Hn). }
  match goal with
  | |- ?b ++ ?c ++ emitted ?pre _ = _ =>
      assert (Eb : b = []) by exact E2;
      assert (Ec : c = [name ++ lit " -> " ++ ip]) by exact E3;
      rewrite Eb, Ec
  end.
  cbn [app]. f_equal.
Qed.

(** A blank line after the last line adds nothing to the list. *)
Lemma list_loop_snoc_nl content :
  Forall (fun l => is_line l = true) (readlines content) ->
  list_loop (readlines (content ++ [NL])) None []
  = list_loop (readlines content) None [].
Proof.
  intros H. rewrite readlines_snoc_nl by exact H.
  destruct (ends_cr false content); [now rewrite app_nil_r|].
  change (list_loop ?l None []) with (list_loop l (current_host []) []).
  rewrite !list_loop_spec. cbn [app]. rewrite emitted_app.
  cbn [emitted app].
  assert (E : emits (readlines content) [NL] = []) by reflexivity.
  rewrite E. now rewrite app_nil_r.
Qed.

(** X11.  What add_host and update_hostname put in the file,
    list_hostnames reads back.  Take a file in which every line read
    ends with a line feed and no Host line names [name] (in whatever
    case); a name and a new value that are not empty, start with a
    character that is not white space and hold no line break, the new
    value holding no backslash either; and a home directory and a user
    name without line break.  Then after add_host(name) and
    update_hostname(name, ip), both returning True, list_hostnames
    returns the list it returned before followed by the one pair
    [name -> ip]. *)
Theorem add_host_update_hostname_then_list self name ip w content :
  ssh_config w = Some content ->
  Forall (fun l => is_line l = true) (readlines content) ->
  (forall l, In l (readlines content) -> is_target name l = false) ->
  is_value name = true -> no_cr name = true ->
  is_value ip = true -> no_cr ip = true -> no_backslash ip = true ->
  no_break (home self) = true -> no_break (get_ssh_user self) = true ->
  exists w1 w2 old,
    add_host self name w = (Returned true, w1)
    /\ update_hostname self name ip w1 = (Returned true, w2)
    /\ list_hostnames self w = (Returned old, w)
    /\ list_hostnames self w2 = (Returned (old ++ [name ++ lit " -> " ++ ip]), w2).
Proof.
  intros Hc Hl Hno Hn Hn' Hv Hv' Hip Hh Hu.
  assert (Hbn : no_break name = true).
  { unfold no_break. now rewrite (no_nl_of_value _ Hn), Hn'. }
  assert (Hbi : no_break ip = true).
  { unfold no_break. now rewrite (no_nl_of_value _ Hv), Hv'. }
  destruct (@add_then_update self name ip w content Hc Hno Hbn Hip Hh Hu)
    as (w1 & w2 & H1 & H2 & H3 & _).
  exists w1, w2, (list_loop (readlines content) None []).
  split; [exact H1|]. split; [exact H2|]. split.
  - now apply list_hostnames_lines.
  - rewrite (list_hostnames_lines self w2 H3). f_equal. f_equal.
    rewrite readlines_edited by assumption.
    rewrite list_with_entry by assumption.
    now rewrite list_loop_snoc_nl.
Qed.

Lemma add_host_update_hostname_then_list_witness :
  exists w1 w2,
    add_host sample_self (lit "c") (sample_world (Some two_blocks) []) = (Returned true, w1)
    /\ update_hostname sample_self (lit "c") (lit "3.3.3.3") w1 = (Returned true, w2)
    /\ list_hostnames sample_self w2
       = (Returned [lit "a -> 10.0.0.1"; lit "b -> 10.0.0.2"; lit "c -> 3.3.3.3"], w2).
Proof.
  destruct (@add_host_update_hostname_then_list sample_self (lit "c") (lit "3.3.3.3")
              (sample_world (Some two_blocks) []) two_blocks)
    as (w1 & w2 & old & H1 & H2 & H3 & H4); try reflexivity.
  - repeat constructor.
  - intros l H. vm_compute in H.
    repeat (destruct H as [H|H]; [subst l; reflexivity|]). destruct H.
  - exists w1, w2. split; [exact H1|]. split; [exact H2|].
    rewrite H4. injection H3 as <-. reflexivity.
Defined.

(** ** The text of a command that succeeded *)

Lemma lstrip_stops s : stops Space (lstrip s) = true.
Proof.
  induction s as [|a s IH]; [reflexivity|]. simpl.
  destruct (is_space a) eqn:E; [exact IH|]. simpl. now rewrite E.
Qed.

Lemma lstrip_suffix s : exists ws, s = ws ++ lstrip s.
Proof.
  induction s as [|a s (ws & IH)]; [now exists []|]. simpl.
  destruct (is_space a).
  - exists (a :: ws). simpl. now rewrite <- IH.
  - now exists [].
Qed.

Lemma strip_trimmed s : trimmed (strip s).
Proof.
  unfold strip. split.
  - intros c rest E.
    destruct (lstrip_suffix (rev (lstrip s))) as (ws & Hw).
    apply (f_equal (@rev ascii)) in Hw. rewrite rev_involutive, rev_app_distr, E in Hw.
    pose proof (lstrip_stops s) as Hs. rewrite Hw in Hs. simpl in Hs.
    now apply negb_true_iff in Hs.
  - intros init c E.
    apply (f_equal (@rev ascii)) in E. rewrite rev_involutive, rev_app_distr in E.
    pose proof (lstrip_stops (rev (lstrip s))) as Hs. rewrite E in Hs. simpl in Hs.
    now apply negb_true_iff in Hs.
Qed.

(** X12.  When the external command ends with status 0, the text
    run_command returns (the address, for get_public_ip) has no white
    space at either end: neither its first nor its last character is
    white space. *)
Theorem run_command_success_is_trimmed command w :
  returncode (subprocess_run w command) = 0%Z ->
  exists text, gcp_utils.run_command command w = (Returned text, w) /\ trimmed text.
Proof.
  intros H. rewrite run_command_eq. eexists. split; [reflexivity|].
  unfold command_text. rewrite H. apply strip_trimmed.
Qed.

Lemma run_command_success_is_trimmed_witness :
  exists text,
    gcp_utils.run_command (describe_command (lit "vm") (lit "proj") (lit "zone-1"))
      (sample_world None (line "  5.5.5.5 "))
    = (Returned text, sample_world None (line "  5.5.5.5 "))
    /\ trimmed text.
Proof.
  apply (@run_command_success_is_trimmed
           (describe_command (lit "vm") (lit "proj") (lit "zone-1"))
           (sample_world None (line "  5.5.5.5 "))).
  reflexivity.
Defined.

(** ** main *)

Lemma print_each_eq : forall entries w,
  print_each entries w = (Returned tt, set_stdout w (stdout w ++ map Say entries)).
Proof.
  induction entries as [|e es IH]; intros w.
  - simpl. rewrite app_nil_r. now destruct w.
  - cbn [print_each]. unfold bind at 1. unfold print at 1. rewrite IH.
    cbn [stdout set_stdout map]. rewrite <- app_assoc. reflexivity.
Qed.

(** X13.  main drops what update_hostname and add_host return: the
    process ends with status 0 whenever the operation returns, with False
    as with True, and with status 1 only when the operation raises, after
    the line for the exception is printed. *)
Theorem main_drops_the_result help self host new_ip new_name w :
  main help self (ArgUpdate host new_ip) w
  = match update_hostname self host new_ip w with
    | (Returned _, w') => (Returned 0%Z, w')
    | (Raised e, w') => (Returned 1%Z, set_stdout w' (stdout w' ++ [SayErrorOccurred e]))
    end
  /\ main help self (ArgAdd new_name) w
     = match add_host self new_name w with
       | (Returned _, w') => (Returned 0%Z, w')
       | (Raised e, w') => (Returned 1%Z, set_stdout w' (stdout w' ++ [SayErrorOccurred e]))
       end.
Proof.
  unfold main. split.
  - pose proof (update_hostname_unfold self host new_ip w) as Eu.
    destruct (ssh_config w) as [content|].
    + destruct (update_loop host new_ip (readlines content) false false [])
        as [[[] out]|e] eqn:El.
      * erewrite try_except_bind by exact Eu. now rewrite Eu.
      * erewrite try_except_bind by exact Eu. now rewrite Eu.
      * apply update_loop_raises in El. subst e.
        erewrite try_except_raised by (exact Eu || reflexivity). now rewrite Eu.
    + erewrite try_except_bind by exact Eu. now rewrite Eu.
  - pose proof (add_host_unfold self new_name w) as Ea.
    destruct (ssh_config w) as [content|].
    + destruct (existsb _ (readlines content)).
      * erewrite try_except_bind by exact Ea. now rewrite Ea.
      * erewrite try_except_bind by exact Ea. now rewrite Ea.
    + erewrite try_except_raised by (exact Ea || reflexivity). now rewrite Ea.
Qed.

(** X14.  main with the sub-command list ends with status 0 and prints:
    without the file, the error of list_hostnames and then the line that
    no hostnames were found; with a file that lists nothing, that line
    alone; otherwise the header and the pairs, one per line, in order. *)
Theorem main_list help self w :
  (ssh_config w = None ->
   main help self ArgList w
   = (Returned 0%Z,
      said (said w (lit "Error: Config file " ++ ssh_config_path self ++ lit " not found!"))
        (lit "No hostnames found in the SSH config file.")))
  /\ (forall content,
        ssh_config w = Some content ->
        main help self ArgList w
        = (Returned 0%Z,
           match list_loop (readlines content) None [] with
           | [] => said w (lit "No hostnames found in the SSH config file.")
           | pairs =>
               set_stdout w (stdout w ++ Say (lit "Configured Hosts:") :: map Say pairs)
           end)).
Proof.
  unfold main. split.
  - intros Hc. erewrite try_except_bind.
    2:{ unfold list_hostnames, bind, isfile. rewrite Hc. reflexivity. }
    reflexivity.
  - intros content Hc.
    erewrite try_except_bind by exact (list_hostnames_lines self w Hc).
    destruct (list_loop (readlines content) None []) as [|e es]; [reflexivity|].
    erewrite try_except_bind by reflexivity.
    erewrite try_except_bind by apply print_each_eq.
    cbn [stdout said set_stdout]. rewrite <- app_assoc. reflexivity.
Qed.

Lemma main_list_witness :
  main (lit "usage") sample_self ArgList (sample_world (Some two_blocks) [])
  = (Returned 0%Z,
     set_stdout (sample_world (Some two_blocks) [])
       [Say (lit "Configured Hosts:"); Say (lit "a -> 10.0.0.1"); Say (lit "b -> 10.0.0.2")])
  /\ main (lit "usage") sample_self ArgList (sample_world None [])
     = (Returned 0%Z,
        set_stdout (sample_world None [])
          [Say (lit "Error: Config file /home/user/.ssh/config not found!");
           Say (lit "No hostnames found in the SSH config file.")]).
Proof.
  destruct (@main_list (lit "usage") sample_self (sample_world (Some two_blocks) []))
    as (_ & H1).
  destruct (@main_list (lit "usage") sample_self (sample_world None [])) as (H2 & _).
  split.
  - rewrite (H1 two_blocks eq_refl). reflexivity.
  - rewrite (H2 eq_refl). reflexivity.
Defined.

(** X15.  main with the sub-command start: when project or zone is not
    set the SystemExit with its message leaves main as it is; otherwise
    the process ends with status 0 whether start_vm returned True or
    False. *)
Theorem main_start help self instance w :
  (truthy (cfg_project (config self)) && truthy (cfg_zone (config self)) = false ->
   main help self (ArgStart instance) w
   = (Raised (SystemExit (lit "Error: Project and Zone must be set in the config file.")),
      w))
  /\ (truthy (cfg_project (config self)) = true ->
      truthy (cfg_zone (config self)) = true ->
      exists b w',
        start_vm self instance w = (Returned b, w')
        /\ main help self (ArgStart instance) w = (Returned 0%Z, w')).
Proof.
  split.
  - intros H. unfold main, start_vm, try_except, bind, get_project_and_zone.
    apply andb_false_iff in H as [H|H]; rewrite H; [reflexivity|].
    now rewrite orb_true_r.
  - intros Hp Hz.
    destruct (start_vm_returns_bool self instance w Hp Hz) as (b & w' & E).
    exists b, w'. split; [exact E|].
    unfold main. erewrite try_except_bind by exact E. reflexivity.
Qed.

Lemma main_start_witness :
  exists w',
    start_vm sample_self (lit "vm") (failing_world (Some two_blocks) (line "quota exceeded"))
    = (Returned false, w')
    /\ main (lit "usage") sample_self (ArgStart (lit "vm"))
         (failing_world (Some two_blocks) (line "quota exceeded"))
       = (Returned 0%Z, w').
Proof.
  destruct (@main_start (lit "usage") sample_self (lit "vm")
              (failing_world (Some two_blocks) (line "quota exceeded")))
    as (_ & H).
  destruct (H eq_refl eq_refl) as (b & w' & H1 & H2).
  exists w'. split; [|exact H2].
  rewrite H1. f_equal. f_equal.
  assert (E : fst (start_vm sample_self (lit "vm")
                     (failing_world (Some two_blocks) (line "quota exceeded")))
              = Returned false) by reflexivity.
  rewrite H1 in E. simpl in E. now injection E.
Defined.

(** ** The script of gcp_utils.py *)

(** X16.  For each action the parser of the script accepts: for [ip] the
    script runs nothing and prints nothing, whatever the options, since
    the branch that asks for the address tests for the action
    [describe], which the parser does not accept; for [start] and [stop]
    with the three options given it prints the text of the start or stop
    command and returns without an exception; and for [start] and [stop]
    with one of the options left out it raises [TypeError] before
    anything is run or printed. *)
Theorem gcp_utils_main_actions action instance project zone w :
  In action choices ->
  gcp_utils_main action instance project zone w
  = if str_eqb action (lit "ip") then (Returned tt, w)
    else match instance, project, zone with
         | Some i, Some p, Some z =>
             (Returned tt,
              said w (command_text
                        (subprocess_run w
                           (if str_eqb action (lit "start")
                            then start_command i p z
                            else stop_command i p z))))
         | _, _, _ => (Raised TypeError, w)
         end.
Proof.
  intros [<-|[<-|[<-|[]]]]; unfold gcp_utils_main;
    match goal with
    | |- context [str_eqb ?a ?b] =>
        repeat match goal with
               | |- context [str_eqb ?a ?b] =>
                   let v := eval vm_compute in (str_eqb a b) in
                   change (str_eqb a b) with v
               end
    end; cbv iota.
  - destruct instance as [i|], project as [p|], zone as [z|]; try reflexivity.
    unfold bind, with_options, gcp_utils.start_instance.
    rewrite run_command_eq. reflexivity.
  - destruct instance as [i|], project as [p|], zone as [z|]; try reflexivity.
    unfold bind, with_options, gcp_utils.stop_instance.
    rewrite run_command_eq. reflexivity.
  - reflexivity.
Qed.

Lemma gcp_utils_main_actions_witness :
  gcp_utils_main (lit "ip") (Some (lit "vm")) (Some (lit "proj")) (Some (lit "zone-1"))
    (sample_world None (line "5.5.5.5"))
  = (Returned tt, sample_world None (line "5.5.5.5"))
  /\ gcp_utils_main (lit "start") (Some (lit "vm")) (Some (lit "proj")) (Some (lit "zone-1"))
       (sample_world None (line "started"))
     = (Returned tt, said (sample_world None (line "started")) (lit "started"))
  /\ gcp_utils_main (lit "stop") (Some (lit "vm")) None (Some (lit "zone-1"))
       (sample_world None (line "stopped"))
     = (Raised TypeError, sample_world None (line "stopped")).
Proof.
  split; [|split].
  - apply (@gcp_utils_main_actions (lit "ip") (Some (lit "vm")) (Some (lit "proj"))
             (Some (lit "zone-1")) (sample_world None (line "5.5.5.5"))).
    right. right. left. reflexivity.
  - apply (@gcp_utils_main_actions (lit "start") (Some (lit "vm")) (Some (lit "proj"))
             (Some (lit "zone-1")) (sample_world None (line "started"))).
    left. reflexivity.
  - apply (@gcp_utils_main_actions (lit "stop") (Some (lit "vm")) None
             (Some (lit "zone-1")) (sample_world None (line "stopped"))).
    right. left. reflexivity.
Defined.

(** ** A new value that is not a well-formed template *)

(** X17.  update_hostname returns, without an exception, whenever the
    new value holds no backslash; and, whatever the new value is, whenever
    no HostName line lies in a block of the host or the file is missing:
    re.sub, the only call that reads the new value as a template, is then
    not reached. *)
Theorem update_hostname_returns self host new_ip w :
  no_backslash new_ip = true
  \/ (forall content, ssh_config w = Some content ->
      forall i l, nth_error (readlines content) i = Some l ->
        in_block host (readlines content) i = true -> is_hostname_line l = false) ->
  exists b w', update_hostname self host new_ip w = (Returned b, w').
Proof.
  intros H. rewrite update_hostname_unfold.
  destruct (ssh_config w) as [content|]; [|now do 2 eexists].
  change (update_loop ?h ?ip ?l false false [])
    with (update_loop h ip l false (flag h []) []).
  assert (E : exists f,
            update_loop host new_ip (readlines content) false (flag host []) []
            = Returned (false || existsb (is_target host) (readlines content),
                        [] ++ rewritten host f [] (readlines content))).
  { destruct H as [H|H].
    - exists (sub_line new_ip). apply update_loop_spec.
      intros i l _ _ _. now apply sub_plain.
    - exists (fun l => l). apply update_loop_spec.
      intros i l Hi Hf Hh. rewrite (H content eq_refl i l Hi Hf) in Hh. discriminate. }
  destruct E as [f ->].
  destruct (false || existsb (is_target host) (readlines content)); now do 2 eexists.
Qed.

Lemma update_hostname_returns_witness :
  (exists b w',
     update_hostname sample_self (lit "a") (lit "2.2.2.2")
       (sample_world (Some two_blocks) []) = (Returned b, w'))
  /\ (exists b w',
        update_hostname sample_self (lit "a") (lit "\q")
          (sample_world (Some (line "Host a" ++ line "    User alice")) [])
        = (Returned b, w')).
Proof.
  split.
  - apply (@update_hostname_returns sample_self (lit "a") (lit "2.2.2.2")
             (sample_world (Some two_blocks) [])).
    left. reflexivity.
  - apply (@update_hostname_returns sample_self (lit "a") (lit "\q")
             (sample_world (Some (line "Host a" ++ line "    User alice")) [])).
    right. intros content Hc. injection Hc as <-. intros i l Hi _.
    destruct i as [|[|i]]; [| |destruct i; vm_compute in Hi; discriminate];
      vm_compute in Hi; injection Hi as <-; reflexivity.
Defined.
